(** * The libpurple / whatsmeow bridge (whatsmeow_bridge.go)

    A shallow embedding of the Go side of the bridge: the account
    registry [accounts] guarded by the mutex [mu], the five exported
    commands, the pairing (QR) consumer goroutine and the event handler
    with its message classification.

    The whatsmeow engine, the os and fmt packages and the C callbacks of
    bridge.h are outside the bridge.  Every call that crosses that
    boundary is recorded, in program order, in the list of [Call]s a
    command returns; what a fallible engine call answers is supplied by
    the caller of the model as an environment record, so a statement
    quantified over environments covers every behaviour of the engine.
    C string allocation and release (C.CString / C.free) is not
    modelled.

    The C side (plugin.c) follows the Go side: the implementations of the
    callbacks and the protocol callbacks libpurple calls, with libpurple
    itself outside, its calls recorded and its lookups supplied by the
    caller of the model. *)

From stdpp Require Import gmap strings list.
From Stdlib Require Import ZArith Ascii.

Local Open Scope Z_scope.
Local Open Scope string_scope.
Local Open Scope list_scope.

(** ** The parts of whatsmeow, fmt and path/filepath the bridge uses *)

(** The library functions are parameters of the model:
    - [JID], [JID_zero]: types.JID and its zero value;
    - [ParseJID]: types.ParseJID, returning Go's pair (value, error),
      where [None] is a nil error and [Some e] an error with text [e];
    - [JID_String]: the String method of a JID;
    - [fmt_q]: what fmt's verb %q prints for a string;
    - [filepath_Join]: filepath.Join. *)
Class Whatsmeow := {
  JID : Type;
  JID_zero : JID;
  ParseJID : string → JID * option string;
  JID_String : JID → string;
  fmt_q : string → string;
  filepath_Join : list string → string;
}.

Inductive ChatPresence := ChatPresenceComposing | ChatPresencePaused.
Inductive ChatPresenceMedia := ChatPresenceMediaText | ChatPresenceMediaAudio.

Record QRChannelItem := { Event : string; Code : string }.

Section Bridge.
Context `{Whatsmeow}.

(** *** Engine objects *)

Definition Container := N.
Record Device := { ID : option JID }.
Record Client := { Store : Device }.
Definition NewClient (deviceStore : Device) : Client := {| Store := deviceStore |}.

(** A cancellable context is named by a token; the channel GetQRChannel
    hands out is named by a handle. *)
Definition Token := nat.
Definition Chan := nat.

(** accountState holds per-account whatsmeow state. *)
Record accountState := {
  client : option Client;
  container : Container;
  ctx : Token;
  cancel : Token;
}.

(** *** Calls that leave the bridge *)

Inductive Call :=
  (* sync.Mutex *)
  | mu_Lock
  | mu_Unlock
  (* os *)
  | os_MkdirAll (path : string) (perm : N)
  | os_Chmod (path : string) (perm : N)
  (* whatsmeow *)
  | sqlstore_New (dialect address : string)
  | GetFirstDevice (c : Container)
  | AddEventHandler (cl : Client) (account : N)
  | GetQRChannel (cl : Client)
  | Connect (cl : Client)
  | Disconnect (cl : Client)
  | SendMessage (cl : Client) (to : JID) (conversation : string)
  | SendChatPresence (cl : Client) (jid : JID) (state : ChatPresence)
                     (media : ChatPresenceMedia)
  | MarkRead (cl : Client) (ids : list string) (a1 a2 a3 : JID)
  (* Go to C callbacks of bridge.h *)
  | bridge_show_qr_code (account : N) (qr_data : string)
  | bridge_connected (account : N)
  | bridge_disconnected (account : N)
  | bridge_error (account : N) (message : string)
  | bridge_receive_message (account : N)
      (sender_jid chat_jid text message_id push_name : string)
      (timestamp from_me is_group : Z)
  | bridge_presence_update (account : N) (jid : string) (available : Z)
  | bridge_typing_notification (account : N) (jid : string) (composing : Z).

(** *** The state of the bridge process *)

(** [accounts] is the package variable of that name.  The mutex [mu]
    has no field: commands run one at a time here, and its Lock and Unlock
    are recorded among the calls, which is what the statements about it
    read.  A pairing consumer started by login is an entry of
    [goroutines], the account it was started for and the channel it
    ranges over; [chans] holds, per channel, the items the engine has sent
    that the consumer has not taken yet, oldest first. *)
Record World := mkWorld {
  accounts : gmap N accountState;       (* keyed by PurpleAccount pointer *)
  next_token : Token;                   (* contexts made so far *)
  cancelled : gset Token;               (* contexts whose cancel was called *)
  goroutines : list (N * Chan);         (* running pairing consumers *)
  chans : gmap Chan (list QRChannelItem) (* items sent and not yet received *)
}.

Definition initial : World :=
  {| accounts := ∅; next_token := O; cancelled := ∅;
     goroutines := []; chans := ∅ |}.

Definition with_accounts (f : gmap N accountState → gmap N accountState)
    (w : World) : World :=
  {| accounts := f (accounts w); next_token := next_token w;
     cancelled := cancelled w; goroutines := goroutines w; chans := chans w |}.

(** *** State and output monad *)

Definition M (A : Type) : Type := World → A * list Call * World.

#[local] Instance M_ret : MRet M := λ A a w, (a, [], w).
#[local] Instance M_bind : MBind M := λ A B f m w,
  let '(a, o1, w1) := m w in
  let '(b, o2, w2) := f a w1 in
  (b, o1 ++ o2, w2).

Definition call (c : Call) : M unit := λ w, (tt, [c], w).
Definition read : M World := λ w, (w, [], w).
Definition modify (f : World → World) : M unit := λ w, (tt, [], f w).

(** context.WithCancel(context.Background()) *)
Definition WithCancel : M Token := λ w,
  (next_token w, [],
   {| accounts := accounts w; next_token := S (next_token w);
      cancelled := cancelled w; goroutines := goroutines w; chans := chans w |}).

(** Calling the CancelFunc of token [t]. *)
Definition do_cancel (t : Token) : M unit :=
  modify (λ w,
   {| accounts := accounts w; next_token := next_token w;
      cancelled := {[t]} ∪ cancelled w; goroutines := goroutines w;
      chans := chans w |}).

(** The go statement starting a pairing consumer on channel [ch]. *)
Definition go_consumer (account : N) (ch : Chan) : M unit :=
  modify (λ w,
   {| accounts := accounts w; next_token := next_token w;
      cancelled := cancelled w; goroutines := goroutines w ++ [(account, ch)];
      chans := chans w |}).

(** reportError sends an error string to the C side. *)
Definition reportError (account : N) (msg : string) : M unit :=
  call (bridge_error account msg).

(** ** Exported functions, called from C *)

(** What the fallible calls of one login answer.  Errors are carried as
    the text their Error method gives; [inl] is a nil error. *)
Record LoginEnv := {
  UserHomeDir : string;
  sqlstore_New_result : Container + string;
  GetFirstDevice_result : Device + string;
  GetQRChannel_result : Chan + string;
  Connect_result : option string;
}.

(** The body of gowhatsapp_go_login between mu.Lock() and the deferred
    mu.Unlock(). *)
Definition login_locked (env : LoginEnv) (account : N) (phone : string) : M Z :=
  let key := account in
  w ← read;
  match accounts w !! key with
  | Some _ => mret (-1) (* already logged in *)
  | None =>
    let home := UserHomeDir env in
    let purpleDir := filepath_Join [home; ".purple"; "whatsmeow"] in
    call (os_MkdirAll purpleDir 448%N);;
    let dbPath := filepath_Join [purpleDir; phone +:+ ".db"] in
    call (sqlstore_New "sqlite3" ("file:" +:+ dbPath +:+ "?_foreign_keys=on"));;
    match sqlstore_New_result env with
    | inr err => reportError account ("DB error: " +:+ err);; mret (-1)
    | inl container =>
      call (os_Chmod dbPath 384%N);;
      call (GetFirstDevice container);;
      match GetFirstDevice_result env with
      | inr err => reportError account ("Device store error: " +:+ err);; mret (-1)
      | inl deviceStore =>
        let client := NewClient deviceStore in
        actx ← WithCancel;
        let state := {| client := Some client; container := container;
                        ctx := actx; cancel := actx |} in
        modify (with_accounts (λ m, <[key := state]> m));;
        call (AddEventHandler client account);;
        match ID (Store client) with
        | None =>
          (* New login: need QR code *)
          call (GetQRChannel client);;
          match GetQRChannel_result env with
          | inr err => reportError account ("QR channel error: " +:+ err);; mret (-1)
          | inl qrChan =>
            call (Connect client);;
            match Connect_result env with
            | Some err => reportError account ("Connect error: " +:+ err);; mret (-1)
            | None => go_consumer account qrChan;; mret 0
            end
          end
        | Some _ =>
          (* Existing session *)
          call (Connect client);;
          match Connect_result env with
          | Some err => reportError account ("Reconnect error: " +:+ err);; mret (-1)
          | None => mret 0
          end
        end
      end
    end
  end.

Definition gowhatsapp_go_login (env : LoginEnv) (account : N) (phone : string)
    : M Z :=
  call mu_Lock;;
  r ← login_locked env account phone;
  call mu_Unlock;;
  mret r.

Definition gowhatsapp_go_logout (account : N) : M unit :=
  let key := account in
  call mu_Lock;;
  w ← read;
  let state := accounts w !! key in
  match state with
  | Some _ => modify (with_accounts (λ m, delete key m))
  | None => mret tt
  end;;
  call mu_Unlock;;
  match state with
  | Some state =>
    match client state with
    | Some cl => do_cancel (cancel state);; call (Disconnect cl)
    | None => mret tt
    end
  | None => mret tt
  end.

(** [send_result] is what client.SendMessage answers: [None] is a nil
    error. *)
Definition gowhatsapp_go_send_message (send_result : option string)
    (account : N) (jidStr text : string) : M Z :=
  let key := account in
  call mu_Lock;;
  w ← read;
  let state := accounts w !! key in
  call mu_Unlock;;
  match state ≫= client with
  | None => mret (-1)
  | Some cl =>
    let '(targetJID, err) := ParseJID jidStr in
    match err with
    | Some err =>
      reportError account ("Invalid JID " +:+ fmt_q jidStr +:+ ": " +:+ err);;
      mret (-1)
    | None =>
      call (SendMessage cl targetJID text);;
      match send_result with
      | Some err => reportError account ("Send failed: " +:+ err);; mret (-1)
      | None => mret 0
      end
    end
  end.

Definition gowhatsapp_go_send_typing (account : N) (jidStr : string)
    (typing : Z) : M unit :=
  let key := account in
  call mu_Lock;;
  w ← read;
  let state := accounts w !! key in
  call mu_Unlock;;
  match state ≫= client with
  | None => mret tt
  | Some cl =>
    let '(targetJID, err) := ParseJID jidStr in
    match err with
    | Some _ => mret tt
    | None =>
      let media := ChatPresenceMediaText in
      if decide (typing ≠ 0)
      then call (SendChatPresence cl targetJID ChatPresenceComposing media)
      else call (SendChatPresence cl targetJID ChatPresencePaused media)
    end
  end.

Definition gowhatsapp_go_mark_read (account : N)
    (jidStr msgID senderStr : string) : M unit :=
  let key := account in
  call mu_Lock;;
  w ← read;
  let state := accounts w !! key in
  call mu_Unlock;;
  match state ≫= client with
  | None => mret tt
  | Some cl =>
    if decide (msgID = EmptyString) then mret tt
    else
      let chatJID := (ParseJID jidStr).1 in
      let senderJID := (ParseJID senderStr).1 in
      call (MarkRead cl [msgID] chatJID senderJID chatJID)
  end.

(** ** The pairing consumer goroutine started by login *)

(** The engine sends [item] on channel [ch]. *)
Definition chan_send (ch : Chan) (item : QRChannelItem) : M unit :=
  modify (λ w,
   {| accounts := accounts w; next_token := next_token w;
      cancelled := cancelled w; goroutines := goroutines w;
      chans := <[ch := default [] (chans w !! ch) ++ [item]]> (chans w) |}).

(** The body of [for evt := range qrChan], run on one received item. *)
Definition qr_consumer_body (account : N) (evt : QRChannelItem) : M unit :=
  if decide (Event evt = "code") then
    call (bridge_show_qr_code account (Code evt))
  else if decide (Event evt = "success") then
    call (bridge_connected account)
  else if decide (Event evt = "timeout") then
    reportError account "QR code timed out — reconnect to retry"
  else mret tt.

(** One turn of the loop of goroutine [g]: receive the oldest item of its
    channel, if there is one, and run the body on it. *)
Definition qr_consumer_step (g : N * Chan) : M unit :=
  w ← read;
  match chans w !! g.2 with
  | Some (evt :: rest) =>
    modify (λ w,
     {| accounts := accounts w; next_token := next_token w;
        cancelled := cancelled w; goroutines := goroutines w;
        chans := <[g.2 := rest]> (chans w) |});;
    qr_consumer_body g.1 evt
  | _ => mret tt
  end.

(** ** Event handling: whatsmeow events to C callbacks *)

(** waE2E.Message and the content messages the handler looks at.  A nil
    pointer and an unset optional field are [None]. *)
Record ExtendedTextMessage := { Text : option string }.
Record ImageMessage := { ImageCaption : option string }.
Record VideoMessage := { VideoCaption : option string }.
Record DocumentMessage := { Title : option string }.
Record ReactionMessage := { ReactionText : option string }.

Record WaMessage := {
  Conversation : option string;
  ExtendedText : option ExtendedTextMessage;
  Image : option ImageMessage;
  Video : option VideoMessage;
  Document : option DocumentMessage;
  Sticker : option unit;
  Audio : option unit;
  Reaction : option ReactionMessage;
}.

(** The generated getters: the zero value on a nil receiver or an unset
    field. *)
Definition GetConversation (m : option WaMessage) : string :=
  default EmptyString (m ≫= Conversation).
Definition GetExtendedTextMessage (m : option WaMessage) := m ≫= ExtendedText.
Definition GetImageMessage (m : option WaMessage) := m ≫= Image.
Definition GetVideoMessage (m : option WaMessage) := m ≫= Video.
Definition GetDocumentMessage (m : option WaMessage) := m ≫= Document.
Definition GetStickerMessage (m : option WaMessage) := m ≫= Sticker.
Definition GetAudioMessage (m : option WaMessage) := m ≫= Audio.
Definition GetReactionMessage (m : option WaMessage) := m ≫= Reaction.
Definition GetText (x : ExtendedTextMessage) : string := default EmptyString (Text x).
Definition GetImageCaption (x : ImageMessage) : string :=
  default EmptyString (ImageCaption x).
Definition GetVideoCaption (x : VideoMessage) : string :=
  default EmptyString (VideoCaption x).
Definition GetTitle (x : DocumentMessage) : string := default EmptyString (Title x).
Definition GetReactionText (x : ReactionMessage) : string :=
  default EmptyString (ReactionText x).

Record MessageInfo := {
  Sender : JID;
  Chat : JID;
  MsgID : string;
  PushName : string;
  Timestamp : Z;      (* Timestamp.Unix() *)
  IsFromMe : bool;
  IsGroup : bool;
}.

Record EventsMessage := { Info : MessageInfo; Message : option WaMessage }.

Inductive EngineEvent :=
  | EvMessage (v : EventsMessage)
  | EvConnected
  | EvDisconnected
  | EvLoggedOut (Reason : string)
  | EvPresence (From : JID) (Unavailable : bool)
  | EvChatPresence (sender : JID) (State : ChatPresence)
  | EvReceipt
  | EvOther.

(** Extract text content: the if / else-if chain of handleMessage. *)
Definition classify (m : option WaMessage) : string :=
  if decide (GetConversation m ≠ EmptyString) then GetConversation m
  else match GetExtendedTextMessage m with
  | Some ext => GetText ext
  | None =>
  match GetImageMessage m with
  | Some img => "[Image] " +:+ GetImageCaption img
  | None =>
  match GetVideoMessage m with
  | Some vid => "[Video] " +:+ GetVideoCaption vid
  | None =>
  match GetDocumentMessage m with
  | Some doc => "[Document] " +:+ GetTitle doc
  | None =>
  match GetStickerMessage m with
  | Some _ => "[Sticker]"
  | None =>
  match GetAudioMessage m with
  | Some _ => "[Voice Message]"
  | None =>
  match GetReactionMessage m with
  | Some reaction => "[Reaction: " +:+ GetReactionText reaction +:+ "]"
  | None => "[Unsupported message type]"
  end end end end end end end.

Definition handleMessage (account : N) (state : accountState)
    (v : EventsMessage) : M unit :=
  let text := classify (Message v) in
  if decide (text = EmptyString) then mret tt
  else
    let cFromMe := if IsFromMe (Info v) then 1 else 0 in
    let cIsGroup := if IsGroup (Info v) then 1 else 0 in
    call (bridge_receive_message account
            (JID_String (Sender (Info v))) (JID_String (Chat (Info v)))
            text (MsgID (Info v)) (PushName (Info v))
            (Timestamp (Info v)) cFromMe cIsGroup).

Definition handleEvent (account : N) (state : accountState)
    (evt : EngineEvent) : M unit :=
  match evt with
  | EvMessage v => handleMessage account state v
  | EvConnected => call (bridge_connected account)
  | EvDisconnected => call (bridge_disconnected account)
  | EvLoggedOut reason => call (bridge_error account ("Logged out: " +:+ reason))
  | EvPresence from unavailable =>
    let available := if decide (unavailable = false) then 1 else 0 in
    call (bridge_presence_update account (JID_String from) available)
  | EvChatPresence sender st =>
    let composing :=
      match st with ChatPresenceComposing => 1 | ChatPresencePaused => 0 end in
    call (bridge_typing_notification account (JID_String sender) composing)
  | EvReceipt => mret tt
  | EvOther => mret tt
  end.

(** ** Vocabulary of the statements *)

(** Calls into the whatsmeow engine. *)
Definition engine_call (c : Call) : bool :=
  match c with
  | sqlstore_New _ _ | GetFirstDevice _ | AddEventHandler _ _
  | GetQRChannel _ | Connect _ | Disconnect _ | SendMessage _ _ _
  | SendChatPresence _ _ _ _ | MarkRead _ _ _ _ _ => true
  | _ => false
  end.

Definition engine_calls (out : list Call) : list Call := List.filter engine_call out.

(** Every record of the registry carries an engine handle (login stores
    none without). *)
Definition registry_ok (w : World) : Prop :=
  ∀ k st, accounts w !! k = Some st → is_Some (client st).

Definition present {A} (o : option A) : bool :=
  match o with Some _ => true | None => false end.

(** The Session Records the registry holds for [account]. *)
Definition records_of (account : N) (w : World) : list accountState :=
  (List.filter (λ p, bool_decide (p.1 = account)) (map_to_list (accounts w))).*2.

(** The record a login stores once store and device are there. *)
Definition new_state (c : Container) (d : Device) (w : World) : accountState :=
  {| client := Some (NewClient d); container := c;
     ctx := next_token w; cancel := next_token w |}.

(** Every setup step of a login answers without error (the pairing
    channel is asked for only when the device has no identity). *)
Definition setup_succeeds (env : LoginEnv) : bool :=
  match sqlstore_New_result env, GetFirstDevice_result env with
  | inl _, inl d =>
    match ID d with
    | None => match GetQRChannel_result env with inl _ => true | inr _ => false end
    | Some _ => true
    end
    && negb (present (Connect_result env))
  | _, _ => false
  end.

(** Of two commands with results [r1] and [r2], exactly one succeeded. *)
Definition exactly_one_succeeds (r1 r2 : Z) : Prop :=
  (r1 = 0 ∧ r2 ≠ 0) ∨ (r1 ≠ 0 ∧ r2 = 0).

(** Engine calls made while the mutex is held; [held] tells whether it is
    held before the first call of the list. *)
Fixpoint under_lock (held : bool) (out : list Call) : list Call :=
  match out with
  | [] => []
  | mu_Lock :: out => under_lock true out
  | mu_Unlock :: out => under_lock false out
  | c :: out =>
    (if held && engine_call c then [c] else []) ++ under_lock held out
  end.

(** *** The classification policy in the words of the specification *)

Inductive Branch :=
  | PlainText | QuotedText | ImageCaptionB | VideoCaptionB | DocumentTitle
  | StickerPlaceholder | VoiceNotePlaceholder | ReactionTextB | Unsupported.

Definition priority : list Branch :=
  [PlainText; QuotedText; ImageCaptionB; VideoCaptionB; DocumentTitle;
   StickerPlaceholder; VoiceNotePlaceholder; ReactionTextB; Unsupported].

(** The content a branch looks for is there. *)
Definition populated (m : option WaMessage) (b : Branch) : bool :=
  match b with
  | PlainText => bool_decide (GetConversation m ≠ EmptyString)
  | QuotedText => present (GetExtendedTextMessage m)
  | ImageCaptionB => present (GetImageMessage m)
  | VideoCaptionB => present (GetVideoMessage m)
  | DocumentTitle => present (GetDocumentMessage m)
  | StickerPlaceholder => present (GetStickerMessage m)
  | VoiceNotePlaceholder => present (GetAudioMessage m)
  | ReactionTextB => present (GetReactionMessage m)
  | Unsupported => true
  end.

(** The outward text a branch yields. *)
Definition branch_text (m : option WaMessage) (b : Branch) : string :=
  match b with
  | PlainText => GetConversation m
  | QuotedText => from_option GetText EmptyString (GetExtendedTextMessage m)
  | ImageCaptionB =>
    "[Image] " +:+ from_option GetImageCaption EmptyString (GetImageMessage m)
  | VideoCaptionB =>
    "[Video] " +:+ from_option GetVideoCaption EmptyString (GetVideoMessage m)
  | DocumentTitle =>
    "[Document] " +:+ from_option GetTitle EmptyString (GetDocumentMessage m)
  | StickerPlaceholder => "[Sticker]"
  | VoiceNotePlaceholder => "[Voice Message]"
  | ReactionTextB =>
    "[Reaction: "
    +:+ from_option GetReactionText EmptyString (GetReactionMessage m) +:+ "]"
  | Unsupported => "[Unsupported message type]"
  end.

(** Branch [b] fires on [m]: it is the first of the priority order whose
    content is there. *)
Definition fires (m : option WaMessage) (b : Branch) : Prop :=
  List.find (populated m) priority = Some b.

(** *** The bridge process among its neighbours *)

(** What can happen next: the host calls a command, the engine sends a
    pairing item on a channel or calls the event handler login
    registered, or a pairing consumer takes its next turn. *)
Inductive Action :=
  | HostLogin (env : LoginEnv) (account : N) (phone : string)
  | HostLogout (account : N)
  | HostSendMessage (send_result : option string) (account : N)
                    (jidStr text : string)
  | HostSendTyping (account : N) (jidStr : string) (typing : Z)
  | HostMarkRead (account : N) (jidStr msgID senderStr : string)
  | EngineQR (ch : Chan) (item : QRChannelItem)
  | EngineCallback (account : N) (state : accountState) (evt : EngineEvent)
  | ConsumerTurn (i : nat).

Definition act (a : Action) : M unit :=
  match a with
  | HostLogin env account phone => gowhatsapp_go_login env account phone;; mret tt
  | HostLogout account => gowhatsapp_go_logout account
  | HostSendMessage r account jidStr text =>
    gowhatsapp_go_send_message r account jidStr text;; mret tt
  | HostSendTyping account jidStr typing =>
    gowhatsapp_go_send_typing account jidStr typing
  | HostMarkRead account jidStr msgID senderStr =>
    gowhatsapp_go_mark_read account jidStr msgID senderStr
  | EngineQR ch item => chan_send ch item
  | EngineCallback account state evt => handleEvent account state evt
  | ConsumerTurn i =>
    w ← read;
    match goroutines w !! i with
    | Some g => qr_consumer_step g
    | None => mret tt
    end
  end.

Fixpoint run (l : list Action) : M unit :=
  match l with
  | [] => mret tt
  | a :: l => act a;; run l
  end.

End Bridge.

(** ** A concrete engine for examples *)

Record DemoJID := { User : string; Server : string }.

Fixpoint split_at (c : ascii) (s : string) : option (string * string) :=
  match s with
  | EmptyString => None
  | String a s' =>
    if decide (a = c) then Some (EmptyString, s')
    else match split_at c s' with
         | Some (u, v) => Some (String a u, v)
         | None => None
         end
  end.

(** user@server parses; a bare server parses; a second at-sign is an
    error, answered with the zero JID. *)
Definition demo_ParseJID (s : string) : DemoJID * option string :=
  match split_at "@"%char s with
  | None => ({| User := EmptyString; Server := s |}, None)
  | Some (u, v) =>
    match split_at "@"%char v with
    | None => ({| User := u; Server := v |}, None)
    | Some _ =>
      ({| User := EmptyString; Server := EmptyString |},
       Some "unexpected number of @ in JID")
    end
  end.

Definition demo_JID_String (j : DemoJID) : string :=
  if decide (User j = EmptyString) then Server j
  else User j +:+ "@" +:+ Server j.

Definition demo_quote (s : string) : string :=
  String "034"%char (s +:+ String "034"%char EmptyString).

Definition demo_engine : Whatsmeow :=
  {| JID := DemoJID;
     JID_zero := {| User := EmptyString; Server := EmptyString |};
     ParseJID := demo_ParseJID;
     JID_String := demo_JID_String;
     fmt_q := demo_quote;
     filepath_Join := String.concat "/" |}.

Fixpoint count_char (c : ascii) (s : string) : nat :=
  match s with
  | EmptyString => O
  | String a s' => (if decide (a = c) then 1 else 0) + count_char c s'
  end.

(** A parser that answers a failure with what it has parsed so far, as
    types.ParseJID of whatsmeow does for a user part with more than one
    dot: the address is split at the first at-sign, and a user part with
    two dots or more is an error handed back together with that
    address. *)
Definition dotted_ParseJID (s : string) : DemoJID * option string :=
  match split_at "@"%char s with
  | None => ({| User := EmptyString; Server := s |}, None)
  | Some (u, v) =>
    let parsedJID := {| User := u; Server := v |} in
    if decide (1 < count_char "."%char u)%nat
    then (parsedJID, Some "unexpected number of dots in JID")
    else (parsedJID, None)
  end.

Definition dotted_engine : Whatsmeow :=
  {| JID := DemoJID;
     JID_zero := {| User := EmptyString; Server := EmptyString |};
     ParseJID := dotted_ParseJID;
     JID_String := demo_JID_String;
     fmt_q := demo_quote;
     filepath_Join := String.concat "/" |}.

Section DottedData.
#[local] Existing Instance dotted_engine.

(** The world after account 1 resumed its session on that engine. *)
Definition dotted_logged_in : World :=
  (gowhatsapp_go_login
     {| UserHomeDir := "/home/u";
        sqlstore_New_result := inl 1%N;
        GetFirstDevice_result :=
          inl {| ID := Some {| User := "6512345678";
                               Server := "s.whatsapp.net" |} |};
        GetQRChannel_result := inl 7%nat;
        Connect_result := None |} 1 "6512345678" initial).2.

Definition dotted_client : Client :=
  NewClient {| ID := Some {| User := "6512345678";
                             Server := "s.whatsapp.net" |} |}.

End DottedData.

(** What the engine answers in the examples. *)
Section DemoData.
#[local] Existing Instance demo_engine.

Definition demo_phone : string := "6512345678".

Definition demo_self : DemoJID :=
  {| User := "6512345678"; Server := "s.whatsapp.net" |}.

(** No stored identity; every setup step succeeds; pairing channel 7. *)
Definition env_pair_ok : LoginEnv :=
  {| UserHomeDir := "/home/u";
     sqlstore_New_result := inl 1%N;
     GetFirstDevice_result := inl {| ID := None |};
     GetQRChannel_result := inl 7%nat;
     Connect_result := None |}.

(** A stored identity; every setup step succeeds. *)
Definition env_resume_ok : LoginEnv :=
  {| UserHomeDir := "/home/u";
     sqlstore_New_result := inl 1%N;
     GetFirstDevice_result := inl {| ID := Some demo_self |};
     GetQRChannel_result := inl 7%nat;
     Connect_result := None |}.

(** The store cannot be opened. *)
Definition env_db_fails : LoginEnv :=
  {| UserHomeDir := "/home/u";
     sqlstore_New_result := inr "unable to open database file";
     GetFirstDevice_result := inl {| ID := None |};
     GetQRChannel_result := inl 7%nat;
     Connect_result := None |}.

(** Store and device are fine, the network is down. *)
Definition env_connect_fails : LoginEnv :=
  {| UserHomeDir := "/home/u";
     sqlstore_New_result := inl 1%N;
     GetFirstDevice_result := inl {| ID := None |};
     GetQRChannel_result := inl 7%nat;
     Connect_result := Some "dial tcp: no such host" |}.

Definition env_reconnect_fails : LoginEnv :=
  {| UserHomeDir := "/home/u";
     sqlstore_New_result := inl 1%N;
     GetFirstDevice_result := inl {| ID := Some demo_self |};
     GetQRChannel_result := inl 7%nat;
     Connect_result := Some "dial tcp: no such host" |}.

(** The world after account 1 resumed its session. *)
Definition demo_logged_in : World :=
  (gowhatsapp_go_login env_resume_ok 1 demo_phone initial).2.

Definition demo_client : Client := NewClient {| ID := Some demo_self |}.

Definition demo_code : QRChannelItem := {| Event := "code"; Code := "2@k9c1" |}.

Definition demo_friend : DemoJID :=
  {| User := "6598765432"; Server := "s.whatsapp.net" |}.

Definition demo_info : MessageInfo :=
  {| Sender := demo_friend; Chat := demo_friend; MsgID := "3EB0A1";
     PushName := "Ana"; Timestamp := 1700000000;
     IsFromMe := false; IsGroup := false |}.

Definition no_content : WaMessage :=
  {| Conversation := None; ExtendedText := None; Image := None; Video := None;
     Document := None; Sticker := None; Audio := None; Reaction := None |}.

(** A quoted-text message whose text field is unset. *)
Definition demo_empty_quote : EventsMessage :=
  {| Info := demo_info;
     Message := Some
       {| Conversation := None; ExtendedText := Some {| Text := None |};
          Image := None; Video := None; Document := None; Sticker := None;
          Audio := None; Reaction := None |} |}.

(** An image with a caption in a message that also has plain text. *)
Definition demo_text_and_image : WaMessage :=
  {| Conversation := Some "hello";
     ExtendedText := None;
     Image := Some {| ImageCaption := Some "a photo" |};
     Video := None; Document := None; Sticker := None; Audio := None;
     Reaction := None |}.

End DemoData.

(** ** More vocabulary for the Go side *)

Section BridgeVocabulary.
Context `{Whatsmeow}.

(** The Lock and Unlock calls of an output, in order. *)
Definition mutex_calls (out : list Call) : list Call :=
  List.filter (λ c, match c with mu_Lock | mu_Unlock => true | _ => false end)
    out.

(** The account a Go to C callback is made for. *)
Definition callback_account (c : Call) : option N :=
  match c with
  | bridge_show_qr_code a _ | bridge_connected a | bridge_disconnected a
  | bridge_error a _ | bridge_receive_message a _ _ _ _ _ _ _ _
  | bridge_presence_update a _ _ | bridge_typing_notification a _ _ => Some a
  | _ => None
  end.

(** Every callback of [out] is made for [account]. *)
Definition addressed_to (account : N) (out : list Call) : Prop :=
  Forall (λ c, ∀ a, callback_account c = Some a → a = account) out.

(** The cancellation tokens of the registry: every record cancels its
    own context, made before now; no two records share a token; only
    tokens made before now are cancelled, and none of a record. *)
Definition tokens_ok (w : World) : Prop :=
  (∀ k st, accounts w !! k = Some st →
     cancel st = ctx st ∧ (ctx st < next_token w)%nat
     ∧ ctx st ∉ cancelled w)
  ∧ (∀ k1 k2 st1 st2,
       accounts w !! k1 = Some st1 → accounts w !! k2 = Some st2 →
       ctx st1 = ctx st2 → k1 = k2)
  ∧ (∀ t, t ∈ cancelled w → (t < next_token w)%nat).

(** What the pairing consumer forwards for one item. *)
Definition forwarded (account : N) (evt : QRChannelItem) : list Call :=
  (qr_consumer_body account evt initial).1.2.

End BridgeVocabulary.

(** ** The C side (plugin.c) *)

(** libpurple is outside the plugin.  Its calls are recorded as
    [PurpleCall]s; what its lookups answer at the time of a call is a
    [Host].  Pointers to connections, conversations and buddies are
    handles, NULL is [None]. *)

Definition PLUGIN_ID : string := "prpl-whatsmeow-lite".

Definition Conn := N.
Definition Conv := N.
Definition Buddy := N.

Inductive PurpleConnectionState := PURPLE_CONNECTED | PURPLE_CONNECTING.
Inductive PurpleConnectionError :=
  | PURPLE_CONNECTION_ERROR_NETWORK_ERROR
  | PURPLE_CONNECTION_ERROR_OTHER_ERROR.
Inductive PurpleTypingState := PURPLE_NOT_TYPING | PURPLE_TYPING | PURPLE_TYPED.

Record Host := {
  purple_account_get_connection : N → option Conn;
  purple_connection_get_account : Conn → N;
  purple_account_get_username : N → string;
  (* for conversations of type PURPLE_CONV_TYPE_CHAT *)
  purple_find_conversation_with_account : string → N → option Conv;
  (* the conversation serv_got_joined_chat hands back *)
  joined_chat : option Conn → Z → string → option Conv;
  purple_conv_chat_get_id : Conv → Z;
  purple_find_buddy : N → string → option Buddy;
  purple_find_chat : Conn → Z → option Conv;
  purple_conversation_get_name : Conv → string;
  purple_markup_strip_html : string → string;
  g_str_hash : string → Z;
}.

(** Messages are delivered with the flag PURPLE_MESSAGE_RECV; a buddy is
    added to no group. *)
Inductive PurpleCall :=
  | purple_connection_set_state (gc : option Conn) (st : PurpleConnectionState)
  | purple_connection_error_reason (gc : option Conn)
      (reason : PurpleConnectionError) (description : string)
  | purple_notify_formatted (gc : Conn) (title primary text : string)
  | purple_notify_error (gc : Conn) (title primary : string)
  | purple_debug_info (category message : string)
  | purple_debug_error (category message : string)
  | serv_got_joined_chat (gc : option Conn) (id : Z) (name : string)
  | serv_got_chat_in (gc : option Conn) (id : Z) (who message : string)
      (mtime : Z)
  | serv_got_im (gc : option Conn) (who message : string) (mtime : Z)
  | purple_buddy_new (pa : N) (name alias : string)
  | purple_blist_add_buddy (pa : N) (name : string)
  | purple_blist_alias_buddy (buddy : Buddy) (alias : string)
  | purple_prpl_got_user_status (pa : N) (name status_id : string)
  | serv_got_typing (gc : option Conn) (name : string) (timeout : Z)
      (state : PurpleTypingState)
  | serv_got_typing_stopped (gc : option Conn) (name : string).

Definition newline : string := String "010"%char EmptyString.

(** strchr: the offset of the first [c] in [s]. *)
Fixpoint strchr (s : string) (c : ascii) : option nat :=
  match s with
  | EmptyString => None
  | String a s' => if decide (a = c) then Some O else S <$> strchr s' c
  end.

(** g_strndup: the first [n] bytes of [s]. *)
Fixpoint g_strndup (s : string) (n : nat) : string :=
  match n, s with
  | S n', String a s' => String a (g_strndup s' n')
  | _, _ => EmptyString
  end.

(** The C string C.CString makes of a Go string, as C reads it: the
    bytes before the first NUL byte. *)
Definition CString (s : string) : string :=
  match strchr s "000"%char with
  | None => s
  | Some n => g_strndup s n
  end.

(** A guint stored in an int: its 32 bits read as a signed number. *)
Definition int_of_guint (h : Z) : Z :=
  let m := h mod 2 ^ 32 in
  if decide (m < 2 ^ 31) then m else m - 2 ^ 32.

(** Extract phone number from purple account username. *)
Definition extract_phone (username : string) : string :=
  match strchr username "@"%char with
  | None => username
  | Some at_ => g_strndup username at_
  end.

(** (push_name && push_name[0]) ? push_name : sender_jid *)
Definition display_name (push_name : option string) (sender_jid : string)
    : string :=
  match push_name with
  | Some (String a s) => String a s
  | _ => sender_jid
  end.

Definition has_push_name (push_name : option string) : bool :=
  match push_name with Some (String _ _) => true | _ => false end.

(** The Go to C callback implementations. *)
Module Plugin.

Definition bridge_show_qr_code (host : Host) (account : N) (qr_data : string)
    : list PurpleCall :=
  match purple_account_get_connection host account with
  | None => []
  | Some gc =>
    let msg :=
      "<b>Scan this QR code with your phone:</b><br><br>"
      +:+ "WhatsApp → Settings → Linked Devices → Link a Device<br><br>"
      +:+ "<b>QR Code Data:</b><br>"
      +:+ "<tt>" +:+ qr_data +:+ "</tt><br><br>"
      +:+ "<i>Tip: Copy this string and paste it into a QR code generator, "
      +:+ "or use the terminal QR display if running from command line.</i>" in
    [purple_notify_formatted gc "WhatsApp QR Code" "Scan to Link Device" msg;
     purple_debug_info PLUGIN_ID ("QR Code: " +:+ qr_data +:+ newline)]
  end.

Definition bridge_connected (host : Host) (account : N) : list PurpleCall :=
  match purple_account_get_connection host account with
  | None => []
  | Some gc =>
    [purple_connection_set_state (Some gc) PURPLE_CONNECTED;
     purple_debug_info PLUGIN_ID ("Connected to WhatsApp" +:+ newline)]
  end.

Definition bridge_disconnected (host : Host) (account : N) : list PurpleCall :=
  match purple_account_get_connection host account with
  | None => []
  | Some gc =>
    [purple_connection_error_reason (Some gc)
       PURPLE_CONNECTION_ERROR_NETWORK_ERROR "Disconnected from WhatsApp"]
  end.

Definition bridge_error (host : Host) (account : N) (message : string)
    : list PurpleCall :=
  match purple_account_get_connection host account with
  | None => []
  | Some gc =>
    [purple_debug_error PLUGIN_ID ("Error: " +:+ message +:+ newline);
     purple_notify_error gc "WhatsApp Error" message]
  end.

Definition bridge_receive_message (host : Host) (account : N)
    (sender_jid chat_jid text message_id : string) (push_name : option string)
    (timestamp from_me is_group : Z) : list PurpleCall :=
  let pa := account in
  if decide (from_me ≠ 0) then
    (* Echoed outgoing message *)
    []
  else if decide (is_group ≠ 0) then
    (* Group message: find or create the chat conversation *)
    let gc := purple_account_get_connection host pa in
    let display := display_name push_name sender_jid in
    match purple_find_conversation_with_account host chat_jid pa with
    | Some conv =>
      [serv_got_chat_in gc (purple_conv_chat_get_id host conv) display text
         timestamp]
    | None =>
      (* Auto-join the group chat *)
      let chat_id := int_of_guint (g_str_hash host chat_jid) in
      serv_got_joined_chat gc chat_id chat_jid ::
      match joined_chat host gc chat_id chat_jid with
      | Some conv =>
        [serv_got_chat_in gc (purple_conv_chat_get_id host conv) display text
           timestamp]
      | None => []
      end
    end
  else
    (* 1:1 message *)
    let display := display_name push_name sender_jid in
    (* Ensure the buddy exists in the list *)
    match purple_find_buddy host pa sender_jid with
    | None =>
      [purple_buddy_new pa sender_jid display;
       purple_blist_add_buddy pa sender_jid]
    | Some buddy =>
      if has_push_name push_name
      then [purple_blist_alias_buddy buddy display]
      else []
    end
    ++ [serv_got_im (purple_account_get_connection host pa) sender_jid text
          timestamp].

Definition bridge_presence_update (host : Host) (account : N) (jid : string)
    (available : Z) : list PurpleCall :=
  if decide (available ≠ 0)
  then [purple_prpl_got_user_status account jid "online"]
  else [purple_prpl_got_user_status account jid "offline"].

Definition bridge_typing_notification (host : Host) (account : N)
    (jid : string) (composing : Z) : list PurpleCall :=
  if decide (composing ≠ 0)
  then [serv_got_typing (purple_account_get_connection host account) jid 0
          PURPLE_TYPING]
  else [serv_got_typing_stopped (purple_account_get_connection host account)
          jid].

End Plugin.

Section PluginCommands.
Context `{Whatsmeow}.

(** What libpurple sees of one call the Go side makes: a callback runs
    its implementation of plugin.c, the other calls do not reach it.  Go
    hands every string over by C.CString, never NULL, and C reads it as
    far as its first NUL byte. *)
Definition callback (host : Host) (c : Call) : list PurpleCall :=
  match c with
  | bridge_show_qr_code a qr => Plugin.bridge_show_qr_code host a (CString qr)
  | bridge_connected a => Plugin.bridge_connected host a
  | bridge_disconnected a => Plugin.bridge_disconnected host a
  | bridge_error a msg => Plugin.bridge_error host a (CString msg)
  | bridge_receive_message a sender chat text id push ts from_me is_group =>
    Plugin.bridge_receive_message host a (CString sender) (CString chat)
      (CString text) (CString id) (Some (CString push)) ts from_me is_group
  | bridge_presence_update a jid available =>
    Plugin.bridge_presence_update host a (CString jid) available
  | bridge_typing_notification a jid composing =>
    Plugin.bridge_typing_notification host a (CString jid) composing
  | _ => []
  end.

(** The libpurple calls an output of the Go side leads to. *)
Definition to_purple (host : Host) (out : list Call) : list PurpleCall :=
  out ≫= callback host.

(** The libpurple protocol callbacks.  Each returns its result, the calls
    the Go side made, the libpurple calls made by the callback itself and
    by the Go to C callbacks under it, in order, and the world. *)



Definition wm_send_im (host : Host) (send_result : option string) (gc : Conn)
    (who message : string) (w : World)
    : Z * list Call * list PurpleCall * World :=
  let account := purple_connection_get_account host gc in
  (* Strip HTML tags that Pidgin may add *)
  let plain := purple_markup_strip_html host message in
  let '(result, out, w') :=
    gowhatsapp_go_send_message send_result account who plain w in
  (if decide (result = 0) then 1 else -1, out, to_purple host out, w').

Definition wm_send_typing (host : Host) (gc : Conn) (name : string)
    (state : PurpleTypingState) (w : World)
    : Z * list Call * list PurpleCall * World :=
  let account := purple_connection_get_account host gc in
  let '(_, out, w') :=
    gowhatsapp_go_send_typing account name
      (match state with PURPLE_TYPING => 1 | _ => 0 end) w in
  (0, out, to_purple host out, w').

Definition wm_chat_send (host : Host) (send_result : option string) (gc : Conn)
    (id : Z) (message : string) (w : World)
    : Z * list Call * list PurpleCall * World :=
  let account := purple_connection_get_account host gc in
  match purple_find_chat host gc id with
  | None => (-1, [], [], w)
  | Some conv =>
    let chat_jid := purple_conversation_get_name host conv in
    let plain := purple_markup_strip_html host message in
    let '(result, out, w') :=
      gowhatsapp_go_send_message send_result account chat_jid plain w in
    (if decide (result = 0) then 1 else -1, out, to_purple host out, w')
  end.

End PluginCommands.

(** A host for examples: account 1 has connection 10 and the username of
    [demo_self]; the friend is no buddy yet; chat 5 is the one group
    conversation, not open yet; every address hashes to 2374343669; HTML
    is passed through. *)
Definition demo_host : Host :=
  {| purple_account_get_connection :=
       λ pa, if decide (pa = 1%N) then Some 10%N else None;
     purple_connection_get_account := λ gc, 1%N;
     purple_account_get_username := λ pa, "6512345678@s.whatsapp.net";
     purple_find_conversation_with_account := λ name pa, None;
     joined_chat := λ gc id name, Some 5%N;
     purple_conv_chat_get_id := λ conv, 77;
     purple_find_buddy := λ pa name, None;
     purple_find_chat :=
       λ gc id, if decide (id = 77) then Some 5%N else None;
     purple_conversation_get_name := λ conv, "12036304@g.us";
     purple_markup_strip_html := λ s, s;
     g_str_hash := λ s, 2374343669 |}.

Section DemoData2.
#[local] Existing Instance demo_engine.

(** A plain text message from the friend. *)
Definition demo_hello : EventsMessage :=
  {| Info := demo_info;
     Message := Some
       {| Conversation := Some "hello"; ExtendedText := None; Image := None;
          Video := None; Document := None; Sticker := None; Audio := None;
          Reaction := None |} |}.


(** A message account 1 sent itself from another device. *)
Definition demo_own : EventsMessage :=
  {| Info :=
       {| Sender := demo_self; Chat := demo_friend; MsgID := "3EB0A2";
          PushName := "Me"; Timestamp := 1700000001;
          IsFromMe := true; IsGroup := false |};
     Message := Message demo_hello |}.

(** A message of the friend in a group, without push name. *)
Definition demo_group : EventsMessage :=
  {| Info :=
       {| Sender := demo_friend;
          Chat := {| User := "12036304"; Server := "g.us" |};
          MsgID := "3EB0A3"; PushName := EmptyString;
          Timestamp := 1700000002; IsFromMe := false; IsGroup := true |};
     Message := Message demo_hello |}.

(** A message of the friend whose text holds a NUL byte and whose push
    name starts with one. *)
Definition demo_nul : EventsMessage :=
  {| Info :=
       {| Sender := demo_friend; Chat := demo_friend; MsgID := "3EB0A4";
          PushName := String "000"%char "Bob"; Timestamp := 1700000003;
          IsFromMe := false; IsGroup := false |};
     Message := Some
       {| Conversation := Some ("hi" +:+ String "000"%char "there");
          ExtendedText := None; Image := None; Video := None;
          Document := None; Sticker := None; Audio := None;
          Reaction := None |} |}.

End DemoData2.

(** * Properties *)

Section Properties.
Context `{Whatsmeow}.

(** Unfolds the monad so that a command applied to a world computes. *)
Ltac run_monad :=
  cbv [mbind M_bind mret M_ret call read modify WithCancel do_cancel
       go_consumer reportError].

(** ** The registry *)

Lemma registry_ok_client w k st :
  registry_ok w → accounts w !! k = Some st → ∃ cl, client st = Some cl.
Proof. intros Hok Hk. destruct (Hok k st Hk) as [cl Hcl]. eauto. Qed.

Lemma initial_ok : registry_ok initial.
Proof. intros k st Hk. cbn in Hk. by rewrite lookup_empty in Hk. Qed.

(** A login for an id that has a record: refused, nothing touched. *)
Lemma login_already env account phone w st :
  accounts w !! account = Some st →
  gowhatsapp_go_login env account phone w = (-1, [mu_Lock; mu_Unlock], w).
Proof.
  intros Hst. unfold gowhatsapp_go_login, login_locked. run_monad.
  by rewrite Hst.
Qed.

(** A login for an id without record: what is left in the registry. *)
Lemma login_fresh_accounts env account phone w :
  accounts w !! account = None →
  accounts (gowhatsapp_go_login env account phone w).2 =
  match sqlstore_New_result env, GetFirstDevice_result env with
  | inl c, inl d => <[account := new_state c d w]> (accounts w)
  | _, _ => accounts w
  end.
Proof.
  intros Hst. unfold gowhatsapp_go_login, login_locked. run_monad.
  rewrite Hst.
  destruct (sqlstore_New_result env) as [c|e]; [|done].
  destruct (GetFirstDevice_result env) as [[[j|]]|e]; [| |done]; cbn.
  - by destruct (Connect_result env).
  - destruct (GetQRChannel_result env); [|done].
    by destruct (Connect_result env).
Qed.

(** A login for an id without record returns 0 exactly when every setup
    step succeeds. *)
Lemma login_fresh_result env account phone w :
  accounts w !! account = None →
  (gowhatsapp_go_login env account phone w).1.1 =
  if setup_succeeds env then 0 else -1.
Proof.
  intros Hst. unfold gowhatsapp_go_login, login_locked, setup_succeeds.
  run_monad. rewrite Hst.
  destruct (sqlstore_New_result env) as [c|e]; [|done].
  destruct (GetFirstDevice_result env) as [[[j|]]|e]; [| |done]; cbn.
  - by destruct (Connect_result env).
  - destruct (GetQRChannel_result env); [|done].
    by destruct (Connect_result env).
Qed.

(** A login that gets past store and device reports each later failure
    but leaves the record it stored in the registry. *)
Lemma login_late_failure env account phone w c d :
  accounts w !! account = None →
  sqlstore_New_result env = inl c →
  GetFirstDevice_result env = inl d →
  setup_succeeds env = false →
  ∃ out msg w',
    gowhatsapp_go_login env account phone w
    = (-1, mu_Lock :: out ++ [bridge_error account msg; mu_Unlock], w')
    ∧ accounts w' !! account = Some (new_state c d w).
Proof.
  intros Hst Hc Hd. unfold gowhatsapp_go_login, login_locked, setup_succeeds.
  run_monad. rewrite Hst, Hc, Hd. destruct d as [[j|]]; cbn.
  - destruct (Connect_result env) as [e|]; [|done]. intros _.
    eexists [_; _; _; _; _; _], _, _. split; [reflexivity|].
    cbn. by rewrite lookup_insert_eq.
  - destruct (GetQRChannel_result env) as [ch|e].
    + destruct (Connect_result env) as [e|]; [|done]. intros _.
      eexists [_; _; _; _; _; _; _], _, _. split; [reflexivity|].
      cbn. by rewrite lookup_insert_eq.
    + intros _. eexists [_; _; _; _; _; _], _, _. split; [reflexivity|].
      cbn. by rewrite lookup_insert_eq.
Qed.

(** A failure before the record is stored leaves the world as it was. *)
Lemma login_early_failure env account phone w :
  accounts w !! account = None →
  match sqlstore_New_result env, GetFirstDevice_result env with
  | inl _, inl _ => True
  | _, _ =>
    (gowhatsapp_go_login env account phone w).2 = w
    ∧ (gowhatsapp_go_login env account phone w).1.1 = -1
  end.
Proof.
  intros Hst. unfold gowhatsapp_go_login, login_locked. run_monad.
  rewrite Hst.
  destruct (sqlstore_New_result env) as [c|e]; [|done].
  by destruct (GetFirstDevice_result env) as [d|e].
Qed.

Lemma login_ok env account phone w :
  registry_ok w → registry_ok (gowhatsapp_go_login env account phone w).2.
Proof.
  intros Hok. destruct (accounts w !! account) as [st|] eqn:Hst.
  - by rewrite (login_already _ _ _ _ _ Hst).
  - intros k st' Hk. rewrite (login_fresh_accounts _ _ _ _ Hst) in Hk.
    destruct (sqlstore_New_result env) as [c|e]; [|by eapply Hok].
    destruct (GetFirstDevice_result env) as [d|e]; [|by eapply Hok].
    destruct (decide (account = k)) as [->|Hne].
    + rewrite lookup_insert_eq in Hk. injection Hk as <-. by eexists.
    + rewrite lookup_insert_ne in Hk by done. by eapply Hok.
Qed.

Lemma filter_key_length {A} (k : N) (l : list (N * A)) :
  NoDup l.*1 →
  (length (List.filter (λ p, bool_decide (p.1 = k)) l) ≤ 1)%nat.
Proof.
  induction l as [|[k' a] l IH]; intros Hnd; cbn; [lia|].
  apply NoDup_cons in Hnd as [Hk' Hnd]. cbn in Hk'.
  case_bool_decide as Hk; [|by apply IH]. subst k'. cbn.
  assert (List.filter (λ p : N * A, bool_decide (p.1 = k)) l = []) as ->; [|done].
  clear IH Hnd. induction l as [|[k'' b] l IH]; [done|]. cbn.
  cbn in Hk'. apply not_elem_of_cons in Hk' as [Hne Hk'].
  case_bool_decide; [congruence|]. by apply IH.
Qed.

(** The registry never holds two records for one id. *)
Lemma records_of_at_most_one account w :
  (length (records_of account w) ≤ 1)%nat.
Proof.
  unfold records_of. rewrite length_fmap.
  apply filter_key_length, NoDup_fst_map_to_list.
Qed.

(** C2 (amended).  The registry holds at most one Session Record per id.
    A login issued while a record for that id exists returns -1 and leaves
    the world as it was, without a second record.  So of two logins for
    the same id, one after the other under the mutex, at most one returns
    0; and exactly one returns 0, the first, when the id had no record and
    every setup step of the first login succeeds. *)
Theorem login_twice env1 env2 account phone1 phone2 w :
  let '(r1, _, w1) := gowhatsapp_go_login env1 account phone1 w in
  let '(r2, out2, w2) := gowhatsapp_go_login env2 account phone2 w1 in
  (length (records_of account w2) ≤ 1)%nat
  ∧ (is_Some (accounts w1 !! account) →
     r2 = -1 ∧ out2 = [mu_Lock; mu_Unlock] ∧ w2 = w1)
  ∧ ¬ (r1 = 0 ∧ r2 = 0)
  ∧ (accounts w !! account = None → setup_succeeds env1 = true →
     exactly_one_succeeds r1 r2 ∧ r1 = 0).
Proof.
  destruct (gowhatsapp_go_login env1 account phone1 w) as [[r1 o1] w1] eqn:E1.
  destruct (gowhatsapp_go_login env2 account phone2 w1) as [[r2 o2] w2] eqn:E2.
  assert (is_Some (accounts w1 !! account) →
          r2 = -1 ∧ o2 = [mu_Lock; mu_Unlock] ∧ w2 = w1) as Hdup.
  { intros [st Hst]. rewrite (login_already _ _ _ _ _ Hst) in E2.
    by injection E2 as <- <- <-. }
  assert (r1 = 0 → is_Some (accounts w1 !! account)) as Hrec.
  { intros ->. destruct (accounts w !! account) as [st|] eqn:Hst.
    - rewrite (login_already _ _ _ _ _ Hst) in E1. by injection E1 as ?.
    - pose proof (login_fresh_result env1 account phone1 w Hst) as Hr.
      pose proof (login_fresh_accounts env1 account phone1 w Hst) as Ha.
      rewrite E1 in Hr, Ha. cbn in Hr, Ha. rewrite Ha.
      unfold setup_succeeds in Hr.
      destruct (sqlstore_New_result env1) as [c|e]; [|done].
      destruct (GetFirstDevice_result env1) as [d|e]; [|done].
      rewrite lookup_insert_eq. by eexists. }
  split; [apply records_of_at_most_one|].
  split; [done|].
  split.
  - intros [Hr1 Hr2]. destruct (Hdup (Hrec Hr1)) as [? _]. lia.
  - intros Hst Hsetup.
    pose proof (login_fresh_result env1 account phone1 w Hst) as Hr.
    rewrite E1, Hsetup in Hr. cbn in Hr. subst r1.
    destruct (Hdup (Hrec eq_refl)) as [-> _].
    split; [left|]; done.
Qed.

(** ** Logout *)

Lemma logout_absent account w :
  accounts w !! account = None →
  gowhatsapp_go_logout account w = (tt, [mu_Lock; mu_Unlock], w).
Proof. intros Hst. unfold gowhatsapp_go_logout. run_monad. by rewrite Hst. Qed.

(** Logout of a session: the record goes, the token is cancelled, the
    engine is disconnected after the mutex is released. *)
Lemma logout_present account w st cl :
  accounts w !! account = Some st → client st = Some cl →
  ∃ w', gowhatsapp_go_logout account w
        = (tt, [mu_Lock; mu_Unlock; Disconnect cl], w')
    ∧ accounts w' = delete account (accounts w)
    ∧ cancelled w' = {[cancel st]} ∪ cancelled w
    ∧ goroutines w' = goroutines w ∧ chans w' = chans w.
Proof.
  intros Hst Hcl. unfold gowhatsapp_go_logout. run_monad.
  rewrite Hst, Hcl. cbn. by eexists.
Qed.

Lemma logout_accounts account w :
  accounts (gowhatsapp_go_logout account w).2 = delete account (accounts w).
Proof.
  unfold gowhatsapp_go_logout. run_monad.
  destruct (accounts w !! account) as [st|] eqn:Hst; cbn.
  - by destruct (client st).
  - by rewrite delete_id.
Qed.

Lemma logout_ok account w :
  registry_ok w → registry_ok (gowhatsapp_go_logout account w).2.
Proof.
  intros Hok k st Hk. rewrite logout_accounts in Hk.
  apply lookup_delete_Some in Hk as [_ Hk]. by eapply Hok.
Qed.

(** ** Send message, typing, mark read *)

Lemma send_message_cases (r : option string) account jidStr text w :
  registry_ok w →
  match accounts w !! account with
  | None =>
    gowhatsapp_go_send_message r account jidStr text w
    = (-1, [mu_Lock; mu_Unlock], w)
  | Some st =>
    ∃ cl, client st = Some cl ∧
    match ParseJID jidStr with
    | (_, Some err) =>
      gowhatsapp_go_send_message r account jidStr text w
      = (-1, [mu_Lock; mu_Unlock;
              bridge_error account
                ("Invalid JID " +:+ fmt_q jidStr +:+ ": " +:+ err)], w)
    | (targetJID, None) =>
      gowhatsapp_go_send_message r account jidStr text w
      = match r with
        | None => (0, [mu_Lock; mu_Unlock; SendMessage cl targetJID text], w)
        | Some err =>
          (-1, [mu_Lock; mu_Unlock; SendMessage cl targetJID text;
                bridge_error account ("Send failed: " +:+ err)], w)
        end
    end
  end.
Proof.
  intros Hok. unfold gowhatsapp_go_send_message.
  destruct (accounts w !! account) as [st|] eqn:Hst.
  - destruct (registry_ok_client _ _ _ Hok Hst) as [cl Hcl].
    exists cl. split; [done|].
    run_monad. rewrite Hst. cbn. rewrite Hcl.
    destruct (ParseJID jidStr) as [j [err|]]; [done|].
    by destruct r.
  - run_monad. by rewrite Hst.
Qed.

(** C6.  SendMessage returns non-zero and calls nothing of the engine
    when no session exists for the id.  When a session exists and the
    target address fails to parse it returns non-zero, reports the invalid
    address and makes no engine call.  Otherwise it forwards the message
    to the engine, once, and returns 0 exactly when the engine reported
    success.  The world is unchanged in every case. *)
Theorem send_message_outcome (r : option string) account jidStr text w :
  registry_ok w →
  let '(ret, out, w') := gowhatsapp_go_send_message r account jidStr text w in
  w' = w ∧
  match accounts w !! account with
  | None => ret ≠ 0 ∧ engine_calls out = []
  | Some st =>
    ∃ cl, client st = Some cl ∧
    match ParseJID jidStr with
    | (_, Some err) =>
      ret ≠ 0 ∧ engine_calls out = []
      ∧ bridge_error account
          ("Invalid JID " +:+ fmt_q jidStr +:+ ": " +:+ err) ∈ out
    | (targetJID, None) =>
      engine_calls out = [SendMessage cl targetJID text]
      ∧ (ret = 0 ↔ r = None)
    end
  end.
Proof.
  intros Hok. pose proof (send_message_cases r account jidStr text w Hok) as Hc.
  destruct (accounts w !! account) as [st|].
  - destruct Hc as (cl & Hcl & Hc).
    destruct (ParseJID jidStr) as [j [err|]]; rewrite Hc.
    + split; [done|]. exists cl. split; [done|].
      split; [done|]. split; [done|]. set_solver.
    + destruct r; (split; [done|]); exists cl; (split; [done|]); by split.
  - rewrite Hc. by split.
Qed.

Lemma send_typing_cases account jidStr typing w :
  gowhatsapp_go_send_typing account jidStr typing w =
  (tt,
   match accounts w !! account ≫= client, ParseJID jidStr with
   | Some cl, (targetJID, None) =>
     [mu_Lock; mu_Unlock;
      SendChatPresence cl targetJID
        (if decide (typing ≠ 0) then ChatPresenceComposing
         else ChatPresencePaused) ChatPresenceMediaText]
   | _, _ => [mu_Lock; mu_Unlock]
   end, w).
Proof.
  unfold gowhatsapp_go_send_typing. run_monad.
  destruct (ParseJID jidStr) as [j [err|]];
    destruct (option_bind _ _ _ _) as [cl|]; try done.
  by destruct (decide (typing ≠ 0)).
Qed.

(** C8.  SendTyping returns without any engine call or error report when
    no session exists for the id or the target address fails to parse.
    Otherwise it sends one chat presence to the engine: composing when
    the flag is set (non-zero), paused when it is not. *)
Theorem send_typing_outcome account jidStr typing w :
  registry_ok w →
  let '(_, out, w') := gowhatsapp_go_send_typing account jidStr typing w in
  w' = w ∧
  match accounts w !! account with
  | None => out = [mu_Lock; mu_Unlock]
  | Some st =>
    ∃ cl, client st = Some cl ∧
    match ParseJID jidStr with
    | (_, Some _) => out = [mu_Lock; mu_Unlock]
    | (targetJID, None) =>
      ∃ p, out = [mu_Lock; mu_Unlock;
                  SendChatPresence cl targetJID p ChatPresenceMediaText]
        ∧ (p = ChatPresenceComposing ↔ typing ≠ 0)
        ∧ (p = ChatPresencePaused ↔ typing = 0)
    end
  end.
Proof.
  intros Hok. rewrite send_typing_cases. split; [done|].
  destruct (accounts w !! account) as [st|] eqn:Hst; [|done].
  destruct (registry_ok_client _ _ _ Hok Hst) as [cl Hcl].
  exists cl. split; [done|]. cbn. rewrite Hcl.
  destruct (ParseJID jidStr) as [j [err|]]; [done|].
  eexists. split; [done|].
  destruct (decide (typing ≠ 0)); split; split; (done || lia).
Qed.

Lemma mark_read_cases account jidStr msgID senderStr w :
  gowhatsapp_go_mark_read account jidStr msgID senderStr w =
  (tt,
   match accounts w !! account ≫= client with
   | Some cl =>
     if decide (msgID = EmptyString) then [mu_Lock; mu_Unlock]
     else [mu_Lock; mu_Unlock;
           MarkRead cl [msgID] (ParseJID jidStr).1 (ParseJID senderStr).1
                    (ParseJID jidStr).1]
   | None => [mu_Lock; mu_Unlock]
   end, w).
Proof.
  unfold gowhatsapp_go_mark_read. run_monad.
  destruct (option_bind _ _ _ _) as [cl|]; [|done].
  by destruct (decide (msgID = EmptyString)).
Qed.

(** C9.  MarkRead makes no engine call exactly when the message id is
    the empty string or no session exists for the id; it then does nothing
    at all.  Otherwise it forwards one read-receipt request for that
    message id to the engine, and nothing else. *)
Theorem mark_read_outcome account jidStr msgID senderStr w :
  registry_ok w →
  let '(_, out, w') := gowhatsapp_go_mark_read account jidStr msgID senderStr w in
  w' = w
  ∧ (engine_calls out = [] ↔
     msgID = EmptyString ∨ accounts w !! account = None)
  ∧ (msgID = EmptyString ∨ accounts w !! account = None →
     out = [mu_Lock; mu_Unlock])
  ∧ (¬ (msgID = EmptyString ∨ accounts w !! account = None) →
     ∃ cl chat sender extra,
       out = [mu_Lock; mu_Unlock; MarkRead cl [msgID] chat sender extra]).
Proof.
  intros Hok. rewrite mark_read_cases. split; [done|].
  destruct (accounts w !! account) as [st|] eqn:Hst.
  - destruct (registry_ok_client _ _ _ Hok Hst) as [cl Hcl].
    cbn. rewrite Hcl.
    destruct (decide (msgID = EmptyString)) as [He|He].
    + split; [by split; [left|]|]. split; [done|]. intros []. by left.
    + split; [split; [done|by intros [|]]|].
      split; [by intros [|]|]. intros _. by eexists _, _, _, _.
  - cbn. split; [by split; [right|]|]. split; [done|]. intros []. by right.
Qed.

(** C10 (amended).  With a session and a non-empty message id, MarkRead
    forwards the read-receipt request whatever the parses of the chat and
    sender addresses answer: the errors are dropped, nothing is reported
    to the host, and the request carries, for each of the two, the
    address the parser handed back, with or without an error. *)
Theorem mark_read_ignores_parse_errors account jidStr msgID senderStr w st :
  registry_ok w →
  accounts w !! account = Some st →
  msgID ≠ EmptyString →
  ∃ cl,
    client st = Some cl
    ∧ gowhatsapp_go_mark_read account jidStr msgID senderStr w
      = (tt, [mu_Lock; mu_Unlock;
              MarkRead cl [msgID] (ParseJID jidStr).1 (ParseJID senderStr).1
                (ParseJID jidStr).1], w).
Proof.
  intros Hok Hst Hid. destruct (registry_ok_client _ _ _ Hok Hst) as [cl Hcl].
  exists cl. split; [done|].
  rewrite mark_read_cases, Hst. cbn. rewrite Hcl.
  by destruct (decide (msgID = EmptyString)).
Qed.

(** ** The mutex *)

(** X26.  Logout, send message, send typing and mark read release the
    mutex before they call the engine. *)
Lemma siblings_release_lock (r : option string) account jidStr text typing
    msgID senderStr w :
  registry_ok w →
  under_lock false (gowhatsapp_go_logout account w).1.2 = []
  ∧ under_lock false (gowhatsapp_go_send_message r account jidStr text w).1.2 = []
  ∧ under_lock false (gowhatsapp_go_send_typing account jidStr typing w).1.2 = []
  ∧ under_lock false
      (gowhatsapp_go_mark_read account jidStr msgID senderStr w).1.2 = [].
Proof.
  intros Hok. repeat split.
  - destruct (accounts w !! account) as [st|] eqn:Hst.
    + destruct (registry_ok_client _ _ _ Hok Hst) as [cl Hcl].
      destruct (logout_present _ _ _ _ Hst Hcl) as (w' & -> & _). done.
    + by rewrite logout_absent.
  - pose proof (send_message_cases r account jidStr text w Hok) as Hc.
    destruct (accounts w !! account) as [st|].
    + destruct Hc as (cl & _ & Hc).
      destruct (ParseJID jidStr) as [j [err|]]; rewrite Hc; [done|].
      by destruct r.
    + by rewrite Hc.
  - rewrite send_typing_cases. cbn.
    destruct (ParseJID jidStr) as [j [err|]];
      by destruct (accounts w !! account ≫= client).
  - rewrite mark_read_cases. cbn.
    destruct (accounts w !! account ≫= client); [|done].
    by destruct (decide (msgID = EmptyString)).
Qed.

(** Login calls Connect while it holds the mutex, whenever it gets as far
    as connecting. *)
Lemma login_connect_under_lock env account phone w c d :
  accounts w !! account = None →
  sqlstore_New_result env = inl c →
  GetFirstDevice_result env = inl d →
  (ID d = None → ∃ ch, GetQRChannel_result env = inl ch) →
  Connect (NewClient d)
  ∈ under_lock false (gowhatsapp_go_login env account phone w).1.2.
Proof.
  intros Hst Hc Hd Hqr. unfold gowhatsapp_go_login, login_locked.
  run_monad. rewrite Hst, Hc, Hd. destruct d as [[j|]]; cbn.
  - destruct (Connect_result env); cbn; set_solver.
  - destruct Hqr as [ch ->]; [done|].
    destruct (Connect_result env); cbn; set_solver.
Qed.

(** ** The pairing consumer *)

(** A turn of the consumer forwards the item it receives, whatever the
    registry and the cancelled tokens are: it reads neither. *)
Lemma consumer_step_forwards g evt rest w :
  chans w !! g.2 = Some (evt :: rest) →
  (qr_consumer_step g w).1.2 =
  if decide (Event evt = "code") then [bridge_show_qr_code g.1 (Code evt)]
  else if decide (Event evt = "success") then [bridge_connected g.1]
  else if decide (Event evt = "timeout") then
    [bridge_error g.1 "QR code timed out — reconnect to retry"]
  else [].
Proof.
  intros Hch. unfold qr_consumer_step, qr_consumer_body. run_monad.
  rewrite Hch. repeat case_decide; done.
Qed.

(** ** Message classification *)

(** Chooses branch [b], whose content the equation [E] shows present. *)
Ltac pick b E :=
  exists b; split; [done|]; cbn [branch_text]; by rewrite ?E.

Lemma classify_fires m : ∃ b, fires m b ∧ classify m = branch_text m b.
Proof.
  unfold fires, classify, priority. cbn [List.find populated].
  destruct (decide (GetConversation m ≠ EmptyString)) as [Hc|Hc].
  { exists PlainText. by rewrite bool_decide_eq_true_2. }
  rewrite bool_decide_eq_false_2 by done.
  destruct (GetExtendedTextMessage m) eqn:E1; cbn; [pick QuotedText E1|].
  destruct (GetImageMessage m) eqn:E2; cbn; [pick ImageCaptionB E2|].
  destruct (GetVideoMessage m) eqn:E3; cbn; [pick VideoCaptionB E3|].
  destruct (GetDocumentMessage m) eqn:E4; cbn; [pick DocumentTitle E4|].
  destruct (GetStickerMessage m) eqn:E5; cbn; [pick StickerPlaceholder E5|].
  destruct (GetAudioMessage m) eqn:E6; cbn; [pick VoiceNotePlaceholder E6|].
  destruct (GetReactionMessage m) eqn:E7; cbn; [pick ReactionTextB E7|].
  by exists Unsupported.
Qed.

(** C4.  Message classification is total and deterministic: for every
    message, whatever content fields are populated, exactly one branch
    fires, the first of the priority order plain text, quoted text, image
    caption, video caption, document title, sticker, voice note, reaction,
    unsupported whose content is there, and the outward text is the text
    of that branch.  A message with a non-empty conversation string takes
    the plain-text branch also when it has image content. *)
Theorem classify_total_deterministic (m : option WaMessage) :
  (∃ b, fires m b ∧ classify m = branch_text m b
        ∧ ∀ b', fires m b' → b' = b)
  ∧ (GetConversation m ≠ EmptyString → is_Some (GetImageMessage m) →
     fires m PlainText ∧ classify m = GetConversation m).
Proof.
  split.
  - destruct (classify_fires m) as (b & Hb & Ht). exists b.
    split; [done|]. split; [done|]. intros b' Hb'.
    unfold fires in *. congruence.
  - intros Hc _. unfold fires, classify, priority. cbn [List.find populated].
    rewrite bool_decide_eq_true_2 by done.
    by destruct (decide (GetConversation m ≠ EmptyString)).
Qed.

(** X27.  The classified text is empty exactly for a quoted-text message
    without text in a message without plain text. *)
Lemma classify_empty m :
  classify m = EmptyString ↔
  GetConversation m = EmptyString
  ∧ ∃ ext, GetExtendedTextMessage m = Some ext ∧ GetText ext = EmptyString.
Proof.
  unfold classify.
  destruct (decide (GetConversation m ≠ EmptyString)) as [Hc|Hc].
  { split; [done|]. by intros [? _]. }
  apply dec_stable in Hc.
  destruct (GetExtendedTextMessage m) as [ext|].
  { split; [by eauto|]. by intros (_ & ? & [= <-] & ?). }
  split; [|by intros (_ & ? & ? & _)].
  destruct (GetImageMessage m); [done|].
  destruct (GetVideoMessage m); [done|].
  destruct (GetDocumentMessage m); [done|].
  destruct (GetStickerMessage m); [done|].
  destruct (GetAudioMessage m); [done|].
  by destruct (GetReactionMessage m).
Qed.

(** A message with text is delivered by one message-received call. *)
Lemma handleMessage_delivers account state v w :
  classify (Message v) ≠ EmptyString →
  ∃ from_me is_group,
    handleMessage account state v w =
    (tt, [bridge_receive_message account
            (JID_String (Sender (Info v))) (JID_String (Chat (Info v)))
            (classify (Message v)) (MsgID (Info v)) (PushName (Info v))
            (Timestamp (Info v)) from_me is_group], w).
Proof.
  intros Ht. unfold handleMessage. case_decide; [done|]. by eexists _, _.
Qed.

(** C7.  A received message event whose classification yields the empty
    string makes no outward call at all, through the handler of messages
    and through the event handler that dispatches to it. *)
Theorem empty_text_dropped account state (v : EventsMessage) w :
  classify (Message v) = EmptyString →
  handleMessage account state v w = (tt, [], w)
  ∧ handleEvent account state (EvMessage v) w = (tt, [], w).
Proof.
  intros Ht. cbn. unfold handleMessage. by case_decide.
Qed.

(** ** Reachable worlds *)

Lemma act_ok a w : registry_ok w → registry_ok (act a w).2.
Proof.
  intros Hok. destruct a as [env k p|k|r k j t|k j t|k j i s|ch it|k st e|i].
  - pose proof (login_ok env k p w Hok) as Hl. cbn. run_monad.
    by destruct (gowhatsapp_go_login env k p w) as [[??]?].
  - by apply logout_ok.
  - pose proof (send_message_cases r k j t w Hok) as Hc. cbn. run_monad.
    destruct (accounts w !! k).
    + destruct Hc as (cl & _ & Hc).
      destruct (ParseJID j) as [? [?|]]; rewrite Hc; [done|]. by destruct r.
    + by rewrite Hc.
  - cbn. by rewrite send_typing_cases.
  - cbn. by rewrite mark_read_cases.
  - done.
  - destruct e; try done. cbn. unfold handleMessage. by case_decide.
  - cbn. run_monad. destruct (goroutines w !! i) as [g|]; [|done].
    unfold qr_consumer_step, qr_consumer_body. run_monad.
    destruct (chans w !! g.2) as [[|evt rest]|]; try done.
    repeat case_decide; done.
Qed.

(** X25.  Every world the process can be in, by commands of the host,
    events and pairing items of the engine and turns of the consumers,
    has a well-formed registry: each record carries an engine handle. *)
Lemma reachable_ok l : registry_ok (run l initial).2.
Proof.
  generalize initial_ok. generalize initial.
  induction l as [|a l IH]; intros w Hok; [done|].
  cbn. run_monad. pose proof (act_ok a w Hok) as Ha.
  destruct (act a w) as [[[] o1] w1]. specialize (IH w1 Ha).
  by destruct (run l w1) as [[[] o2] w2].
Qed.

End Properties.

(** * The properties on the example engine *)

Section DemoFacts.
#[local] Existing Instance demo_engine.

Lemma demo_logged_in_ok : registry_ok demo_logged_in.
Proof. apply login_ok, initial_ok. Qed.

Lemma demo_logged_in_record :
  accounts demo_logged_in !! 1%N
  = Some (new_state 1%N {| ID := Some demo_self |} initial).
Proof. reflexivity. Qed.

(** C1.  The code at a login whose setup fails after the record was
    stored: account 1 has no stored identity, store, device and pairing
    channel are fine, Connect answers an error.  The login reports the
    error and returns -1, but the record of account 1 stays in the
    registry, so that the next login for account 1 is refused as already
    logged in though every step of it would succeed.  The same holds when
    the failing Connect is the one that resumes a stored identity. *)
Theorem login_connect_failure_keeps_record :
  let '(r, out, w') :=
    gowhatsapp_go_login env_connect_fails 1 demo_phone initial in
  r = -1
  ∧ out = [mu_Lock;
           os_MkdirAll "/home/u/.purple/whatsmeow" 448;
           sqlstore_New "sqlite3"
             "file:/home/u/.purple/whatsmeow/6512345678.db?_foreign_keys=on";
           os_Chmod "/home/u/.purple/whatsmeow/6512345678.db" 384;
           GetFirstDevice 1%N;
           AddEventHandler (NewClient {| ID := None |}) 1;
           GetQRChannel (NewClient {| ID := None |});
           Connect (NewClient {| ID := None |});
           bridge_error 1 "Connect error: dial tcp: no such host";
           mu_Unlock]
  ∧ accounts w' !! 1%N = Some (new_state 1%N {| ID := None |} initial)
  ∧ gowhatsapp_go_login env_pair_ok 1 demo_phone w'
    = (-1, [mu_Lock; mu_Unlock], w')
  ∧ is_Some
      (accounts (gowhatsapp_go_login env_reconnect_fails 1 demo_phone initial).2
       !! 1%N).
Proof.
  repeat split; try reflexivity. by eexists.
Qed.

(** C2, the claim as stated fails: two logins for account 1 that both
    find the store unopenable both return -1, so it is not the case that
    exactly one of them succeeds. *)
Lemma two_logins_both_fail :
  let '(r1, _, w1) := gowhatsapp_go_login env_db_fails 1 demo_phone initial in
  let '(r2, _, _) := gowhatsapp_go_login env_db_fails 1 demo_phone w1 in
  ¬ exactly_one_succeeds r1 r2.
Proof. vm_compute. intros [[? _]|[_ ?]]; discriminate. Qed.

Lemma login_twice_witness :
  let '(r1, _, w1) := gowhatsapp_go_login env_pair_ok 1 demo_phone initial in
  let '(r2, out2, w2) := gowhatsapp_go_login env_pair_ok 1 demo_phone w1 in
  (length (records_of 1 w2) ≤ 1)%nat
  ∧ (is_Some (accounts w1 !! 1%N) →
     r2 = -1 ∧ out2 = [mu_Lock; mu_Unlock] ∧ w2 = w1)
  ∧ ¬ (r1 = 0 ∧ r2 = 0)
  ∧ (accounts initial !! 1%N = None → setup_succeeds env_pair_ok = true →
     exactly_one_succeeds r1 r2 ∧ r1 = 0).
Proof.
  exact (login_twice env_pair_ok env_pair_ok 1 demo_phone demo_phone initial).
Defined.

(** C3.  The code when a logout overtakes a pairing item: account 1 logs
    in without stored identity, the engine sends a code on the pairing
    channel, the host logs account 1 out.  The record is gone and the
    token of the session is cancelled, the consumer is still there, and
    its next turn forwards the code outward, after the disconnect. *)
Theorem pairing_forwarded_after_logout :
  let w1 := (run [HostLogin env_pair_ok 1 demo_phone; EngineQR 7%nat demo_code;
                  HostLogout 1] initial).2 in
  accounts w1 !! 1%N = None
  ∧ 0%nat ∈ cancelled w1
  ∧ goroutines w1 = [(1%N, 7%nat)]
  ∧ act (ConsumerTurn 0) w1
    = (tt, [bridge_show_qr_code 1 "2@k9c1"],
       {| accounts := ∅; next_token := 1%nat; cancelled := {[0%nat]};
          goroutines := [(1%N, 7%nat)]; chans := {[7%nat := []]} |})
  ∧ (run [HostLogout 1; ConsumerTurn 0]
       (run [HostLogin env_pair_ok 1 demo_phone; EngineQR 7%nat demo_code]
            initial).2).1.2
    = [mu_Lock; mu_Unlock; Disconnect (NewClient {| ID := None |});
       bridge_show_qr_code 1 "2@k9c1"].
Proof. repeat split; reflexivity. Qed.

(** C5.  The code at a login that resumes a stored identity: the mutex is
    taken first and released last, and the four engine calls of the login,
    Connect among them, are made while it is held. *)
Theorem login_holds_lock_across_connect :
  let out := (gowhatsapp_go_login env_resume_ok 1 demo_phone initial).1.2 in
  out = [mu_Lock;
         os_MkdirAll "/home/u/.purple/whatsmeow" 448;
         sqlstore_New "sqlite3"
           "file:/home/u/.purple/whatsmeow/6512345678.db?_foreign_keys=on";
         os_Chmod "/home/u/.purple/whatsmeow/6512345678.db" 384;
         GetFirstDevice 1%N;
         AddEventHandler demo_client 1;
         Connect demo_client;
         mu_Unlock]
  ∧ under_lock false out
    = [sqlstore_New "sqlite3"
         "file:/home/u/.purple/whatsmeow/6512345678.db?_foreign_keys=on";
       GetFirstDevice 1%N;
       AddEventHandler demo_client 1;
       Connect demo_client]
  ∧ Connect demo_client ∈ under_lock false out.
Proof.
  intros out. split; [reflexivity|]. split; [reflexivity|].
  vm_compute. repeat constructor.
Qed.

Lemma classify_witness :
  GetConversation (Some demo_text_and_image) ≠ EmptyString
  ∧ is_Some (GetImageMessage (Some demo_text_and_image))
  ∧ fires (Some demo_text_and_image) PlainText
  ∧ classify (Some demo_text_and_image)
    = GetConversation (Some demo_text_and_image).
Proof.
  assert (GetConversation (Some demo_text_and_image) ≠ EmptyString) as Hc
    by (vm_compute; discriminate).
  assert (is_Some (GetImageMessage (Some demo_text_and_image))) as Hi
    by (eexists; reflexivity).
  split; [exact Hc|]. split; [exact Hi|].
  exact (proj2 (classify_total_deterministic (Some demo_text_and_image)) Hc Hi).
Defined.

Lemma empty_text_dropped_witness :
  classify (Message demo_empty_quote) = EmptyString
  ∧ handleMessage 1 (new_state 1%N {| ID := None |} initial)
      demo_empty_quote initial = (tt, [], initial)
  ∧ handleEvent 1 (new_state 1%N {| ID := None |} initial)
      (EvMessage demo_empty_quote) initial = (tt, [], initial).
Proof.
  split; [reflexivity|].
  apply (empty_text_dropped 1 (new_state 1%N {| ID := None |} initial)
           demo_empty_quote initial).
  reflexivity.
Defined.

Lemma send_message_outcome_witness :
  registry_ok demo_logged_in
  ∧ (let '(ret, out, w') :=
       gowhatsapp_go_send_message None 1 "unparsable@@address" "hi"
         demo_logged_in in
     w' = demo_logged_in ∧
     match accounts demo_logged_in !! 1%N with
     | None => ret ≠ 0 ∧ engine_calls out = []
     | Some st =>
       ∃ cl, client st = Some cl ∧
       match ParseJID "unparsable@@address" with
       | (_, Some err) =>
         ret ≠ 0 ∧ engine_calls out = []
         ∧ bridge_error 1
             ("Invalid JID " +:+ fmt_q "unparsable@@address" +:+ ": " +:+ err)
           ∈ out
       | (targetJID, None) =>
         engine_calls out = [SendMessage cl targetJID "hi"]
         ∧ (ret = 0 ↔ @None string = None)
       end
     end).
Proof.
  split; [exact demo_logged_in_ok|].
  exact (send_message_outcome None 1 "unparsable@@address" "hi"
           demo_logged_in demo_logged_in_ok).
Defined.

Lemma send_typing_outcome_witness :
  registry_ok demo_logged_in
  ∧ (let '(_, out, w') :=
       gowhatsapp_go_send_typing 1 "6598765432@s.whatsapp.net" 1
         demo_logged_in in
     w' = demo_logged_in ∧
     match accounts demo_logged_in !! 1%N with
     | None => out = [mu_Lock; mu_Unlock]
     | Some st =>
       ∃ cl, client st = Some cl ∧
       match ParseJID "6598765432@s.whatsapp.net" with
       | (_, Some _) => out = [mu_Lock; mu_Unlock]
       | (targetJID, None) =>
         ∃ p, out = [mu_Lock; mu_Unlock;
                     SendChatPresence cl targetJID p ChatPresenceMediaText]
           ∧ (p = ChatPresenceComposing ↔ 1 ≠ 0)
           ∧ (p = ChatPresencePaused ↔ 1 = 0)
       end
     end).
Proof.
  split; [exact demo_logged_in_ok|].
  exact (send_typing_outcome 1 "6598765432@s.whatsapp.net" 1
           demo_logged_in demo_logged_in_ok).
Defined.

Lemma mark_read_outcome_witness :
  registry_ok demo_logged_in
  ∧ (let '(_, out, w') :=
       gowhatsapp_go_mark_read 1 "6598765432@s.whatsapp.net" "3EB0A1"
         "6598765432@s.whatsapp.net" demo_logged_in in
     w' = demo_logged_in
     ∧ (engine_calls out = [] ↔
        "3EB0A1" = EmptyString ∨ accounts demo_logged_in !! 1%N = None)
     ∧ ("3EB0A1" = EmptyString ∨ accounts demo_logged_in !! 1%N = None →
        out = [mu_Lock; mu_Unlock])
     ∧ (¬ ("3EB0A1" = EmptyString ∨ accounts demo_logged_in !! 1%N = None) →
        ∃ cl chat sender extra,
          out = [mu_Lock; mu_Unlock;
                 MarkRead cl ["3EB0A1"] chat sender extra])).
Proof.
  split; [exact demo_logged_in_ok|].
  exact (mark_read_outcome 1 "6598765432@s.whatsapp.net" "3EB0A1"
           "6598765432@s.whatsapp.net" demo_logged_in demo_logged_in_ok).
Defined.

End DemoFacts.

(** * Mark read on an engine whose parser hands back partial addresses *)

Section DottedFacts.
#[local] Existing Instance dotted_engine.

Lemma dotted_logged_in_ok : registry_ok dotted_logged_in.
Proof. apply login_ok, initial_ok. Qed.

Lemma dotted_logged_in_record :
  accounts dotted_logged_in !! 1%N
  = Some (new_state 1%N
            {| ID := Some {| User := "6512345678";
                             Server := "s.whatsapp.net" |} |} initial).
Proof. reflexivity. Qed.

(** C10, the claim as stated fails: the chat address 1.2.3@s.whatsapp.net
    fails to parse, the parser hands back the address it had parsed so
    far together with the error, and MarkRead forwards the request with
    that address, which is not the zero address. *)
Lemma mark_read_forwards_partial_address :
  is_Some (ParseJID "1.2.3@s.whatsapp.net").2
  ∧ gowhatsapp_go_mark_read 1 "1.2.3@s.whatsapp.net" "3EB0A1"
      "6598765432@s.whatsapp.net" dotted_logged_in
    = (tt, [mu_Lock; mu_Unlock;
            MarkRead dotted_client ["3EB0A1"]
              {| User := "1.2.3"; Server := "s.whatsapp.net" |}
              {| User := "6598765432"; Server := "s.whatsapp.net" |}
              {| User := "1.2.3"; Server := "s.whatsapp.net" |}],
       dotted_logged_in)
  ∧ {| User := "1.2.3"; Server := "s.whatsapp.net" |} ≠ JID_zero.
Proof.
  split; [by eexists|]. split; [reflexivity|]. discriminate.
Qed.

Lemma mark_read_ignores_parse_errors_witness :
  registry_ok dotted_logged_in
  ∧ accounts dotted_logged_in !! 1%N
    = Some (new_state 1%N
              {| ID := Some {| User := "6512345678";
                               Server := "s.whatsapp.net" |} |} initial)
  ∧ "3EB0A1" ≠ EmptyString
  ∧ ∃ cl,
      client (new_state 1%N
                {| ID := Some {| User := "6512345678";
                                 Server := "s.whatsapp.net" |} |} initial)
      = Some cl
      ∧ gowhatsapp_go_mark_read 1 "1.2.3@s.whatsapp.net" "3EB0A1"
          "bad.sender.address@s.whatsapp.net" dotted_logged_in
        = (tt, [mu_Lock; mu_Unlock;
                MarkRead cl ["3EB0A1"] (ParseJID "1.2.3@s.whatsapp.net").1
                  (ParseJID "bad.sender.address@s.whatsapp.net").1
                  (ParseJID "1.2.3@s.whatsapp.net").1],
           dotted_logged_in).
Proof.
  assert ("3EB0A1" ≠ EmptyString) as Hid by discriminate.
  split; [exact dotted_logged_in_ok|].
  split; [exact dotted_logged_in_record|].
  split; [exact Hid|].
  exact (mark_read_ignores_parse_errors 1 "1.2.3@s.whatsapp.net" "3EB0A1"
           "bad.sender.address@s.whatsapp.net" dotted_logged_in _
           dotted_logged_in_ok dotted_logged_in_record Hid).
Defined.

End DottedFacts.

(** * Further properties of the Go side *)

Section MoreProperties.
Context `{Whatsmeow}.

Ltac run_monad :=
  cbv [mbind M_bind mret M_ret call read modify WithCancel do_cancel
       go_consumer reportError].

(** ** What a command leaves of the world *)

(** The whole world after a login for an id without record. *)
Lemma login_world env account phone w :
  accounts w !! account = None →
  (gowhatsapp_go_login env account phone w).2 =
  match sqlstore_New_result env, GetFirstDevice_result env with
  | inl c, inl d =>
    {| accounts := <[account := new_state c d w]> (accounts w);
       next_token := S (next_token w);
       cancelled := cancelled w;
       goroutines :=
         goroutines w ++
         match ID d, GetQRChannel_result env, Connect_result env with
         | None, inl ch, None => [(account, ch)]
         | _, _, _ => []
         end;
       chans := chans w |}
  | _, _ => w
  end.
Proof.
  intros Hst. unfold gowhatsapp_go_login, login_locked. run_monad.
  rewrite Hst.
  destruct (sqlstore_New_result env) as [c|e]; [|done].
  destruct (GetFirstDevice_result env) as [[[j|]]|e]; [| |done]; cbn.
  - destruct (GetQRChannel_result env), (Connect_result env); cbn;
      by rewrite app_nil_r.
  - destruct (GetQRChannel_result env); [|by rewrite app_nil_r].
    destruct (Connect_result env); cbn; by rewrite ?app_nil_r.
Qed.

(** The whole world after a logout. *)
Lemma logout_world account w :
  (gowhatsapp_go_logout account w).2 =
  match accounts w !! account with
  | None => w
  | Some st =>
    {| accounts := delete account (accounts w);
       next_token := next_token w;
       cancelled :=
         match client st with
         | Some _ => {[cancel st]} ∪ cancelled w
         | None => cancelled w
         end;
       goroutines := goroutines w;
       chans := chans w |}
  end.
Proof.
  unfold gowhatsapp_go_logout. run_monad.
  destruct (accounts w !! account) as [st|]; [|done]. cbn.
  by destruct (client st).
Qed.

Lemma logout_out account w :
  (gowhatsapp_go_logout account w).1.2 =
  match accounts w !! account ≫= client with
  | Some cl => [mu_Lock; mu_Unlock; Disconnect cl]
  | None => [mu_Lock; mu_Unlock]
  end.
Proof.
  unfold gowhatsapp_go_logout. run_monad.
  destruct (accounts w !! account) as [st|]; [|done]. cbn.
  by destruct (client st).
Qed.

Lemma send_message_absent (r : option string) account jidStr text w :
  accounts w !! account = None →
  gowhatsapp_go_send_message r account jidStr text w
  = (-1, [mu_Lock; mu_Unlock], w).
Proof.
  intros Hst. unfold gowhatsapp_go_send_message. run_monad. by rewrite Hst.
Qed.

Lemma send_message_world (r : option string) account jidStr text w :
  (gowhatsapp_go_send_message r account jidStr text w).2 = w.
Proof.
  unfold gowhatsapp_go_send_message. run_monad.
  destruct (option_bind _ _ _ _) as [cl|]; [|done].
  destruct (ParseJID jidStr) as [j [err|]]; [done|]. by destruct r.
Qed.

(** X1.  Logout removes the record of its id and no other; contexts made,
    consumers and channels stay as they are.  For an id without record it
    does nothing but take and release the mutex.  For an id with a
    record it cancels the token of that record and disconnects its
    client, once, after releasing the mutex. *)
Theorem logout_effect account w :
  let '(_, out, w') := gowhatsapp_go_logout account w in
  accounts w' !! account = None
  ∧ (∀ k, k ≠ account → accounts w' !! k = accounts w !! k)
  ∧ next_token w' = next_token w
  ∧ goroutines w' = goroutines w
  ∧ chans w' = chans w
  ∧ match accounts w !! account with
    | None => out = [mu_Lock; mu_Unlock] ∧ w' = w
    | Some st =>
      match client st with
      | Some cl =>
        out = [mu_Lock; mu_Unlock; Disconnect cl]
        ∧ cancelled w' = {[cancel st]} ∪ cancelled w
      | None => out = [mu_Lock; mu_Unlock] ∧ cancelled w' = cancelled w
      end
    end.
Proof.
  pose proof (logout_world account w) as Hw.
  pose proof (logout_out account w) as Ho.
  destruct (gowhatsapp_go_logout account w) as [[[] out] w'].
  cbn in Hw, Ho. subst w' out.
  destruct (accounts w !! account) as [st|] eqn:Hst; cbn.
  - rewrite lookup_delete_eq. split; [done|].
    split; [by intros k Hk; rewrite lookup_delete_ne|].
    by destruct (client st).
  - done.
Qed.

(** X2.  A second logout for the same id finds nothing to do: it only
    takes and releases the mutex and leaves the world of the first. *)
Theorem logout_twice account w :
  let w1 := (gowhatsapp_go_logout account w).2 in
  gowhatsapp_go_logout account w1 = (tt, [mu_Lock; mu_Unlock], w1).
Proof.
  intros w1. apply logout_absent. unfold w1.
  rewrite logout_accounts. apply lookup_delete_eq.
Qed.

(** X3.  After a logout the id is unknown to the other commands, whatever
    was there before: send message returns -1, send typing and mark read
    return, each without an engine call, an error report or a change of
    the world. *)
Theorem commands_after_logout (r : option string) account jidStr text typing
    msgID senderStr w :
  let w1 := (gowhatsapp_go_logout account w).2 in
  gowhatsapp_go_send_message r account jidStr text w1
  = (-1, [mu_Lock; mu_Unlock], w1)
  ∧ gowhatsapp_go_send_typing account jidStr typing w1
    = (tt, [mu_Lock; mu_Unlock], w1)
  ∧ gowhatsapp_go_mark_read account jidStr msgID senderStr w1
    = (tt, [mu_Lock; mu_Unlock], w1).
Proof.
  intros w1.
  assert (accounts w1 !! account = None) as Hst.
  { unfold w1. rewrite logout_accounts. apply lookup_delete_eq. }
  split; [by apply send_message_absent|].
  rewrite send_typing_cases, mark_read_cases, Hst. cbn.
  by destruct (ParseJID jidStr) as [j [err|]].
Qed.

(** X4.  A login that follows a logout of the same id is judged by its
    setup steps alone, also when the record that the logout removed was
    left by a failed login: it returns 0 exactly when every setup step
    succeeds, and then the registry holds the new record for the id. *)
Theorem login_after_logout env account phone w :
  let w1 := (gowhatsapp_go_logout account w).2 in
  let '(r, _, w2) := gowhatsapp_go_login env account phone w1 in
  (r = 0 ↔ setup_succeeds env = true)
  ∧ (r = 0 ∨ r = -1)
  ∧ (r = 0 → ∃ c d,
       sqlstore_New_result env = inl c ∧ GetFirstDevice_result env = inl d
       ∧ accounts w2 !! account = Some (new_state c d w1)).
Proof.
  intros w1.
  assert (accounts w1 !! account = None) as Hst.
  { unfold w1. rewrite logout_accounts. apply lookup_delete_eq. }
  pose proof (login_fresh_result env account phone w1 Hst) as Hr.
  pose proof (login_fresh_accounts env account phone w1 Hst) as Ha.
  destruct (gowhatsapp_go_login env account phone w1) as [[r out] w2].
  cbn in Hr, Ha. subst r. unfold setup_succeeds in *.
  destruct (sqlstore_New_result env) as [c|e];
    [|by split; [split|split; [right|]]].
  destruct (GetFirstDevice_result env) as [d|e];
    [|by split; [split|split; [right|]]].
  destruct (_ && _).
  - split; [done|]. split; [by left|]. intros _. exists c, d.
    rewrite Ha. by rewrite lookup_insert_eq.
  - split; [done|]. split; [by right|]. done.
Qed.

(** X5.  A login, whatever its outcome, leaves the records of all other
    ids as they are. *)
Theorem login_other_accounts env account phone w k :
  k ≠ account →
  accounts (gowhatsapp_go_login env account phone w).2 !! k = accounts w !! k.
Proof.
  intros Hk. destruct (accounts w !! account) as [st|] eqn:Hst.
  - by rewrite (login_already _ _ _ _ _ Hst).
  - rewrite (login_fresh_accounts _ _ _ _ Hst).
    destruct (sqlstore_New_result env); [|done].
    destruct (GetFirstDevice_result env); [|done].
    by rewrite lookup_insert_ne.
Qed.

(** X6.  A login that cannot open the store, or cannot fetch the device,
    returns -1, reports that one error to its account and leaves the
    world as it was: no record, no context, no consumer.  No event
    handler is registered and the engine is not asked to connect. *)
Theorem login_setup_failure env account phone w :
  accounts w !! account = None →
  let dir := filepath_Join [UserHomeDir env; ".purple"; "whatsmeow"] in
  let db := filepath_Join [dir; phone +:+ ".db"] in
  let open := sqlstore_New "sqlite3" ("file:" +:+ db +:+ "?_foreign_keys=on") in
  match sqlstore_New_result env, GetFirstDevice_result env with
  | inr e, _ =>
    gowhatsapp_go_login env account phone w
    = (-1, [mu_Lock; os_MkdirAll dir 448; open;
            bridge_error account ("DB error: " +:+ e); mu_Unlock], w)
  | inl c, inr e =>
    gowhatsapp_go_login env account phone w
    = (-1, [mu_Lock; os_MkdirAll dir 448; open; os_Chmod db 384;
            GetFirstDevice c;
            bridge_error account ("Device store error: " +:+ e); mu_Unlock], w)
  | inl _, inl _ =>
    is_Some (accounts (gowhatsapp_go_login env account phone w).2 !! account)
  end.
Proof.
  intros Hst dir db open.
  destruct (sqlstore_New_result env) as [c|e] eqn:Hc.
  - destruct (GetFirstDevice_result env) as [d|e] eqn:Hd.
    + rewrite (login_fresh_accounts _ _ _ _ Hst), Hc, Hd.
      by rewrite lookup_insert_eq.
    + unfold gowhatsapp_go_login, login_locked. run_monad.
      by rewrite Hst, Hc, Hd.
  - unfold gowhatsapp_go_login, login_locked. run_monad.
    by rewrite Hst, Hc.
Qed.

(** X7.  Login starts a pairing consumer exactly when it returns 0 for a
    device without identity; the consumer is then the newest one and
    ranges over the channel the engine handed out.  A failed login and a
    login that resumes an identity start none. *)
Theorem login_consumer env account phone w :
  let '(r, _, w') := gowhatsapp_go_login env account phone w in
  chans w' = chans w
  ∧ (r ≠ 0 → goroutines w' = goroutines w)
  ∧ (r = 0 →
     ∃ d, GetFirstDevice_result env = inl d ∧
       match ID d with
       | Some _ => goroutines w' = goroutines w
       | None =>
         ∃ ch, GetQRChannel_result env = inl ch
               ∧ goroutines w' = goroutines w ++ [(account, ch)]
       end).
Proof.
  destruct (accounts w !! account) as [st|] eqn:Hst.
  { rewrite (login_already _ _ _ _ _ Hst). by repeat split. }
  pose proof (login_fresh_result env account phone w Hst) as Hr.
  pose proof (login_world env account phone w Hst) as Hw.
  destruct (gowhatsapp_go_login env account phone w) as [[r out] w'].
  cbn in Hr, Hw. subst r w'. unfold setup_succeeds.
  destruct (sqlstore_New_result env) as [c|e]; [|by repeat split].
  destruct (GetFirstDevice_result env) as [[[j|]]|e]; [| |by repeat split];
    cbn.
  - split; [done|].
    destruct (GetQRChannel_result env), (Connect_result env); cbn;
      rewrite ?app_nil_r; (split; [done|]); try done;
      intros _; by eexists.
  - split; [done|].
    destruct (GetQRChannel_result env) as [ch|e], (Connect_result env); cbn;
      rewrite ?app_nil_r; (split; [done|]); try done.
    intros _. eexists. split; [done|]. by exists ch.
Qed.

(** ** Cancellation tokens *)

Lemma tokens_ok_same w w' :
  accounts w' = accounts w → next_token w' = next_token w →
  cancelled w' = cancelled w → tokens_ok w → tokens_ok w'.
Proof. unfold tokens_ok. by intros -> -> ->. Qed.

Lemma initial_tokens_ok : tokens_ok initial.
Proof.
  split; [|split].
  - intros k st Hk. cbn in Hk. by rewrite lookup_empty in Hk.
  - intros k1 k2 st1 st2 Hk. cbn in Hk. by rewrite lookup_empty in Hk.
  - intros t Ht. cbn in Ht. set_solver.
Qed.

Lemma login_tokens_ok env account phone w :
  tokens_ok w → tokens_ok (gowhatsapp_go_login env account phone w).2.
Proof.
  intros (Hrec & Hinj & Hcan).
  destruct (accounts w !! account) as [st|] eqn:Hst.
  { by rewrite (login_already _ _ _ _ _ Hst). }
  rewrite (login_world _ _ _ _ Hst).
  destruct (sqlstore_New_result env) as [c|e]; [|done].
  destruct (GetFirstDevice_result env) as [d|e]; [|done].
  split; [|split]; cbn.
  - intros k st Hk. destruct (decide (k = account)) as [->|Hne].
    + rewrite lookup_insert_eq in Hk. injection Hk as <-. cbn.
      split; [done|]. split; [lia|]. intros Hin. apply Hcan in Hin. lia.
    + rewrite lookup_insert_ne in Hk by done.
      destruct (Hrec k st Hk) as (? & ? & ?). split; [done|]. split; [lia|done].
  - intros k1 k2 st1 st2 Hk1 Hk2 Heq.
    destruct (decide (k1 = account)) as [->|Hne1];
      destruct (decide (k2 = account)) as [->|Hne2]; [done| | |].
    + rewrite lookup_insert_eq in Hk1. injection Hk1 as <-.
      rewrite lookup_insert_ne in Hk2 by done.
      destruct (Hrec k2 st2 Hk2) as (_ & Hlt & _). cbn in Heq. lia.
    + rewrite lookup_insert_eq in Hk2. injection Hk2 as <-.
      rewrite lookup_insert_ne in Hk1 by done.
      destruct (Hrec k1 st1 Hk1) as (_ & Hlt & _). cbn in Heq. lia.
    + rewrite lookup_insert_ne in Hk1, Hk2 by done. by eapply Hinj.
  - intros t Ht. apply Hcan in Ht. lia.
Qed.

Lemma logout_tokens_ok account w :
  tokens_ok w → tokens_ok (gowhatsapp_go_logout account w).2.
Proof.
  intros (Hrec & Hinj & Hcan). rewrite logout_world.
  destruct (accounts w !! account) as [st|] eqn:Hst; [|done].
  destruct (Hrec account st Hst) as (Hcs & Hlt & Hnc).
  split; [|split]; cbn.
  - intros k st' Hk. apply lookup_delete_Some in Hk as [Hne Hk].
    destruct (Hrec k st' Hk) as (? & ? & ?).
    split; [done|]. split; [done|].
    destruct (client st); [|done].
    intros [Hin|Hin]%elem_of_union; [|done].
    apply elem_of_singleton in Hin. rewrite Hcs in Hin.
    by specialize (Hinj k account st' st Hk Hst Hin).
  - intros k1 k2 st1 st2 Hk1 Hk2.
    apply lookup_delete_Some in Hk1 as [_ Hk1].
    apply lookup_delete_Some in Hk2 as [_ Hk2]. by eapply Hinj.
  - intros t Ht. destruct (client st); [|by apply Hcan].
    apply elem_of_union in Ht as [Ht|Ht]; [|by apply Hcan].
    apply elem_of_singleton in Ht. subst t. lia.
Qed.

Lemma act_tokens_ok a w : tokens_ok w → tokens_ok (act a w).2.
Proof.
  intros Hok. destruct a as [env k p|k|r k j t|k j t|k j i s|ch it|k st e|i].
  - pose proof (login_tokens_ok env k p w Hok) as Hl. cbn. run_monad.
    by destruct (gowhatsapp_go_login env k p w) as [[??]?].
  - by apply logout_tokens_ok.
  - pose proof (send_message_world r k j t w) as Hw. cbn. run_monad.
    destruct (gowhatsapp_go_send_message r k j t w) as [[??]?].
    cbn in Hw. by subst.
  - cbn. by rewrite send_typing_cases.
  - cbn. by rewrite mark_read_cases.
  - by eapply tokens_ok_same.
  - destruct e; try done. cbn. unfold handleMessage. by case_decide.
  - cbn. run_monad. destruct (goroutines w !! i) as [g|]; [|done].
    unfold qr_consumer_step, qr_consumer_body. run_monad.
    destruct (chans w !! g.2) as [[|evt rest]|]; try done.
    repeat case_decide; by eapply tokens_ok_same.
Qed.

(** X8.  In every world the process can reach, each session of the
    registry has a cancellation token of its own that has not been
    cancelled: no two records share a token, so a logout cancels the
    session it removes and no other, and a token once cancelled is never
    handed to a later login. *)
Theorem reachable_tokens_ok l : tokens_ok (run l initial).2.
Proof.
  generalize initial_tokens_ok. generalize initial.
  induction l as [|a l IH]; intros w Hok; [done|].
  cbn. run_monad. pose proof (act_tokens_ok a w Hok) as Ha.
  destruct (act a w) as [[[] o1] w1]. specialize (IH w1 Ha).
  by destruct (run l w1) as [[[] o2] w2].
Qed.

(** ** The pairing consumer *)





(** ** The mutex and the addressee of callbacks *)

Ltac login_paths env :=
  destruct (sqlstore_New_result env) as [?|?]; [|done];
  destruct (GetFirstDevice_result env) as [[[?|]]|?]; [| |done]; cbn;
  [destruct (Connect_result env); done
  |destruct (GetQRChannel_result env); [|done];
   destruct (Connect_result env); done].

(** X10.  Every exported command takes the mutex once, before anything
    else, and releases it once, on every path out of it: the early
    returns of login included. *)
Theorem commands_lock_balanced env (r : option string) account phone jidStr
    text typing msgID senderStr w :
  mutex_calls (gowhatsapp_go_login env account phone w).1.2
  = [mu_Lock; mu_Unlock]
  ∧ mutex_calls (gowhatsapp_go_logout account w).1.2 = [mu_Lock; mu_Unlock]
  ∧ mutex_calls (gowhatsapp_go_send_message r account jidStr text w).1.2
    = [mu_Lock; mu_Unlock]
  ∧ mutex_calls (gowhatsapp_go_send_typing account jidStr typing w).1.2
    = [mu_Lock; mu_Unlock]
  ∧ mutex_calls (gowhatsapp_go_mark_read account jidStr msgID senderStr w).1.2
    = [mu_Lock; mu_Unlock]
  ∧ head (gowhatsapp_go_login env account phone w).1.2 = Some mu_Lock
  ∧ last (gowhatsapp_go_login env account phone w).1.2 = Some mu_Unlock.
Proof.
  assert (mutex_calls (gowhatsapp_go_login env account phone w).1.2
          = [mu_Lock; mu_Unlock]
          ∧ head (gowhatsapp_go_login env account phone w).1.2 = Some mu_Lock
          ∧ last (gowhatsapp_go_login env account phone w).1.2
            = Some mu_Unlock) as (Hl & Hh & Ht).
  { unfold gowhatsapp_go_login, login_locked. run_monad.
    destruct (accounts w !! account); [done|]. login_paths env. }
  split; [done|]. split.
  { rewrite logout_out. by destruct (accounts w !! account ≫= client). }
  split.
  { unfold gowhatsapp_go_send_message. run_monad.
    destruct (option_bind _ _ _ _) as [cl|]; [|done].
    destruct (ParseJID jidStr) as [j [err|]]; [done|]. by destruct r. }
  split.
  { rewrite send_typing_cases. cbn.
    destruct (ParseJID jidStr) as [j [err|]];
      by destruct (accounts w !! account ≫= client). }
  split; [|done].
  rewrite mark_read_cases. cbn.
  destruct (accounts w !! account ≫= client); [|done].
  by destruct (decide (msgID = EmptyString)).
Qed.

Ltac solve_addressed :=
  unfold addressed_to; cbn;
  repeat first
    [ exact I
    | apply Forall_nil
    | apply Forall_cons; split; [cbn; intros ? ?; congruence|] ].

(** X11.  Whatever a command, the event handler or a pairing consumer
    tells the host, it tells it for its own account: every callback made
    carries the account the command was called for, the handler was
    registered for, or the consumer was started for. *)
Theorem callbacks_addressed env (r : option string) account phone jidStr text
    typing msgID senderStr state evt item w :
  addressed_to account (gowhatsapp_go_login env account phone w).1.2
  ∧ addressed_to account (gowhatsapp_go_logout account w).1.2
  ∧ addressed_to account
      (gowhatsapp_go_send_message r account jidStr text w).1.2
  ∧ addressed_to account (gowhatsapp_go_send_typing account jidStr typing w).1.2
  ∧ addressed_to account
      (gowhatsapp_go_mark_read account jidStr msgID senderStr w).1.2
  ∧ addressed_to account (handleEvent account state evt w).1.2
  ∧ addressed_to account (forwarded account item).
Proof.
  repeat split.
  - unfold gowhatsapp_go_login, login_locked. run_monad.
    destruct (accounts w !! account); [solve_addressed|].
    destruct (sqlstore_New_result env) as [?|?]; [|solve_addressed].
    destruct (GetFirstDevice_result env) as [[[?|]]|?]; cbn;
      [| |solve_addressed].
    + destruct (Connect_result env); solve_addressed.
    + destruct (GetQRChannel_result env); [|solve_addressed].
      destruct (Connect_result env); solve_addressed.
  - rewrite logout_out.
    destruct (accounts w !! account ≫= client); solve_addressed.
  - unfold gowhatsapp_go_send_message. run_monad.
    destruct (option_bind _ _ _ _) as [cl|]; [|solve_addressed].
    destruct (ParseJID jidStr) as [j [err|]]; [solve_addressed|].
    destruct r; solve_addressed.
  - rewrite send_typing_cases. cbn.
    destruct (ParseJID jidStr) as [j [err|]];
      destruct (accounts w !! account ≫= client); solve_addressed.
  - rewrite mark_read_cases. cbn.
    destruct (accounts w !! account ≫= client); [|solve_addressed].
    destruct (decide (msgID = EmptyString)); solve_addressed.
  - destruct evt; cbn; try solve_addressed.
    unfold handleMessage. case_decide; solve_addressed.
  - unfold forwarded, qr_consumer_body. run_monad.
    repeat case_decide; solve_addressed.
Qed.

(** X12.  The event handler only talks to the host: for every event it
    makes at most one callback, calls neither the engine nor the mutex
    and leaves the world as it is; a receipt and an event of a kind it
    does not know make no callback. *)
Theorem handleEvent_outward_only account state evt w :
  let '(_, out, w') := handleEvent account state evt w in
  w' = w
  ∧ (length out ≤ 1)%nat
  ∧ engine_calls out = []
  ∧ mutex_calls out = []
  ∧ (evt = EvReceipt ∨ evt = EvOther → out = []).
Proof.
  destruct evt; cbn; try by (repeat split; try lia; intros [|]).
  unfold handleMessage. case_decide; cbn;
    repeat split; try lia; by intros [|].
Qed.

End MoreProperties.

(** * Properties of the C side *)

(** ** extract_phone *)

Lemma strchr_split s c n :
  strchr s c = Some n →
  strchr (g_strndup s n) c = None
  ∧ String.length (g_strndup s n) = n
  ∧ ∃ rest, s = g_strndup s n +:+ String c rest.
Proof.
  revert n. induction s as [|a s IH]; intros n; cbn; [done|].
  case_decide as Ha.
  - intros [= <-]. subst a. cbn. split; [done|]. split; [done|]. by exists s.
  - destruct (strchr s c) as [m|]; [|done]. cbn. intros [= <-].
    destruct (IH m eq_refl) as (Hn & Hl & rest & Hs). cbn.
    rewrite decide_False by done. rewrite Hn. split; [done|].
    split; [by rewrite Hl|]. exists rest.
    change (String a s = String a (g_strndup s m +:+ String c rest)).
    f_equal. exact Hs.
Qed.

Lemma strchr_app_found p c rest :
  strchr p c = None →
  strchr (p +:+ String c rest) c = Some (String.length p)
  ∧ g_strndup (p +:+ String c rest) (String.length p) = p.
Proof.
  induction p as [|a p IH]; intros Hp.
  - change (strchr (String c rest) c = Some O ∧ EmptyString = EmptyString).
    cbn. by case_decide.
  - cbn in Hp. case_decide; [done|].
    destruct (strchr p c) eqn:Hp'; [done|].
    destruct (IH eq_refl) as [Hs Hg].
    change (strchr (String a (p +:+ String c rest)) c
            = Some (S (String.length p))
            ∧ String a (g_strndup (p +:+ String c rest) (String.length p))
              = String a p).
    cbn. rewrite decide_False by done. by rewrite Hs, Hg.
Qed.

(** X13.  The phone taken from a username is the part before its first
    at-sign, and the whole username when it has none: it never holds an
    at-sign, the username is the phone followed, if anything was cut, by
    an at-sign and a rest, and taking the phone of a phone changes
    nothing. *)
Theorem extract_phone_prefix username :
  strchr (extract_phone username) "@"%char = None
  ∧ (strchr username "@"%char = None → extract_phone username = username)
  ∧ (username = extract_phone username
     ∨ ∃ rest, username = extract_phone username +:+ String "@"%char rest)
  ∧ extract_phone (extract_phone username) = extract_phone username.
Proof.
  assert (strchr (extract_phone username) "@"%char = None) as Hno.
  { unfold extract_phone.
    destruct (strchr username "@"%char) as [n|] eqn:Hn; [|done].
    by destruct (strchr_split _ _ _ Hn) as [? _]. }
  split; [done|]. split.
  { unfold extract_phone. by intros ->. }
  split.
  - unfold extract_phone.
    destruct (strchr username "@"%char) as [n|] eqn:Hn; [|by left].
    right. by destruct (strchr_split _ _ _ Hn) as (_ & _ & ?).
  - unfold extract_phone at 1. by rewrite Hno.
Qed.

(** X14.  For a username of the form phone, at-sign, server the phone is
    handed back as it is, provided it holds no at-sign itself. *)
Theorem extract_phone_username phone server :
  strchr phone "@"%char = None →
  extract_phone (phone +:+ String "@"%char server) = phone.
Proof.
  intros Hp. unfold extract_phone.
  by destruct (strchr_app_found phone "@"%char server Hp) as [-> ->].
Qed.

Section PluginProperties.
Context `{Whatsmeow}.

Ltac run_monad :=
  cbv [mbind M_bind mret M_ret call read modify WithCancel do_cancel
       go_consumer reportError].

(** ** Sending *)

(** X15.  wm_send_im answers libpurple 1 when the message was sent and
    -1 when it was not, never 0.  It is sent exactly when the account of
    the connection has a session, the recipient parses and the engine
    accepts it; what is sent is the message with its HTML stripped, and
    libpurple hears nothing more.  The world is unchanged. *)
Theorem wm_send_im_result host (r : option string) gc who message w :
  registry_ok w →
  let account := purple_connection_get_account host gc in
  let '(ret, out, purple, w') := wm_send_im host r gc who message w in
  w' = w
  ∧ (ret = 1 ∨ ret = -1)
  ∧ (ret = 1 ↔
     is_Some (accounts w !! account) ∧ (ParseJID who).2 = None ∧ r = None)
  ∧ (ret = 1 →
     purple = []
     ∧ ∃ cl, out = [mu_Lock; mu_Unlock;
                    SendMessage cl (ParseJID who).1
                      (purple_markup_strip_html host message)]).
Proof.
  intros Hok account. unfold wm_send_im. fold account.
  pose proof (send_message_cases r account who
                (purple_markup_strip_html host message) w Hok) as Hc.
  destruct (accounts w !! account) as [st|].
  - destruct Hc as (cl & Hcl & Hc).
    destruct (ParseJID who) as [j [err|]]; rewrite Hc; cbn.
    + split; [done|]. split; [by right|]. split; [|done].
      split; [done|]. by intros (_ & ? & _).
    + destruct r as [e|]; cbn.
      * split; [done|]. split; [by right|]. split; [|done].
        split; [done|]. by intros (_ & _ & ?).
      * split; [done|]. split; [by left|]. split; [by split|].
        intros _. split; [done|]. by exists cl.
  - rewrite Hc. cbn. split; [done|]. split; [by right|]. split; [|done].
    split; [done|]. by intros ([? ?] & _).
Qed.

(** X16.  wm_chat_send for a chat id libpurple does not know answers -1
    without calling the Go side.  For a known chat it sends to the name
    of the conversation and answers 1 exactly when the account has a
    session, the name parses and the engine accepts the message, -1
    otherwise. *)
Theorem wm_chat_send_result host (r : option string) gc id message w :
  registry_ok w →
  let account := purple_connection_get_account host gc in
  let '(ret, out, purple, w') := wm_chat_send host r gc id message w in
  w' = w
  ∧ (ret = 1 ∨ ret = -1)
  ∧ match purple_find_chat host gc id with
    | None => ret = -1 ∧ out = [] ∧ purple = []
    | Some conv =>
      let chat_jid := purple_conversation_get_name host conv in
      (ret = 1 ↔
       is_Some (accounts w !! account) ∧ (ParseJID chat_jid).2 = None
       ∧ r = None)
      ∧ (ret = 1 →
         ∃ cl, out = [mu_Lock; mu_Unlock;
                      SendMessage cl (ParseJID chat_jid).1
                        (purple_markup_strip_html host message)])
    end.
Proof.
  intros Hok account. unfold wm_chat_send. fold account.
  destruct (purple_find_chat host gc id) as [conv|];
    [|by split; [|split; [right|]]].
  cbn zeta.
  pose proof (send_message_cases r account
                (purple_conversation_get_name host conv)
                (purple_markup_strip_html host message) w Hok) as Hc.
  destruct (accounts w !! account) as [st|].
  - destruct Hc as (cl & Hcl & Hc).
    destruct (ParseJID (purple_conversation_get_name host conv))
      as [j [err|]]; rewrite Hc; cbn.
    + split; [done|]. split; [by right|]. split; [|done].
      split; [done|]. by intros (_ & ? & _).
    + destruct r as [e|]; cbn.
      * split; [done|]. split; [by right|]. split; [|done].
        split; [done|]. by intros (_ & _ & ?).
      * split; [done|]. split; [by left|]. split; [by split|].
        intros _. by exists cl.
  - rewrite Hc. cbn. split; [done|]. split; [by right|]. split; [|done].
    split; [done|]. by intros ([? ?] & _).
Qed.

(** X17.  wm_send_typing always answers 0, tells libpurple nothing and
    leaves the world as it is, with or without a session and whatever the
    name.  With a session and a name that parses, the engine is sent one
    chat presence, composing exactly when the typing state of libpurple
    is PURPLE_TYPING: having typed and not typing are both sent as
    paused.  Without a session, or with a name that does not parse, the
    engine is sent nothing. *)
Theorem wm_send_typing_state host gc name state w :
  let account := purple_connection_get_account host gc in
  let '(ret, out, purple, w') := wm_send_typing host gc name state w in
  ret = 0 ∧ w' = w ∧ purple = []
  ∧ (accounts w !! account = None ∨ is_Some (ParseJID name).2 →
     out = [mu_Lock; mu_Unlock])
  ∧ (registry_ok w →
     ∀ st, accounts w !! account = Some st → (ParseJID name).2 = None →
     ∃ cl p,
       client st = Some cl
       ∧ out = [mu_Lock; mu_Unlock;
                SendChatPresence cl (ParseJID name).1 p ChatPresenceMediaText]
       ∧ (p = ChatPresenceComposing ↔ state = PURPLE_TYPING)).
Proof.
  intros account. unfold wm_send_typing. fold account.
  rewrite send_typing_cases.
  split; [done|]. split; [done|]. split.
  { destruct (accounts w !! account ≫= client) as [cl|]; [|done].
    by destruct (ParseJID name) as [j [err|]]. }
  split.
  - intros [Hst|[e He]].
    + rewrite Hst. cbn. by destruct (ParseJID name) as [j [err|]].
    + destruct (ParseJID name) as [j [err|]]; [|done].
      by destruct (accounts w !! account ≫= client).
  - intros Hok st Hst Hp.
    destruct (registry_ok_client _ _ _ Hok Hst) as [cl Hcl].
    rewrite Hst. cbn. rewrite Hcl.
    destruct (ParseJID name) as [j [err|]]; [done|]. cbn.
    exists cl. destruct state; cbn; eexists; (split; [done|]); by split.
Qed.

(** ** Login and close *)




(** ** Events as libpurple sees them *)

(** X20.  A received message the account sent itself never reaches
    libpurple.  When its classified text is not empty the Go side hands
    it to the C side by one message-received callback with the from-me
    flag 1, and the C side drops it; when the text is empty the Go side
    makes no callback. *)
Theorem own_message_not_shown host account state (v : EventsMessage) w :
  IsFromMe (Info v) = true →
  let out := (handleEvent account state (EvMessage v) w).1.2 in
  to_purple host out = []
  ∧ (classify (Message v) ≠ EmptyString →
     out = [bridge_receive_message account
              (JID_String (Sender (Info v))) (JID_String (Chat (Info v)))
              (classify (Message v)) (MsgID (Info v)) (PushName (Info v))
              (Timestamp (Info v)) 1 (if IsGroup (Info v) then 1 else 0)])
  ∧ (classify (Message v) = EmptyString → out = []).
Proof.
  intros Hme out. unfold out. cbn. unfold handleMessage.
  case_decide as Ht; cbn.
  - by repeat split.
  - rewrite Hme. unfold to_purple. cbn. by repeat split.
Qed.

(** X21.  A direct message with text from someone else reaches libpurple
    as one serv_got_im, the last call.  Sender address, text and push
    name cross to the C side as C strings, read as far as their first
    NUL byte: serv_got_im carries the sender address, the classified
    text so read and the timestamp of the event.  Before it, a sender who
    is no buddy yet is added under the push name, or under the address
    when the push name so read is empty; a sender who is a buddy is given
    the push name as alias when it is not empty. *)
Theorem direct_message_delivery host account state (v : EventsMessage) w :
  IsFromMe (Info v) = false →
  IsGroup (Info v) = false →
  classify (Message v) ≠ EmptyString →
  let sender := CString (JID_String (Sender (Info v))) in
  let push := CString (PushName (Info v)) in
  let named := bool_decide (push ≠ EmptyString) in
  let display := if named then push else sender in
  to_purple host (handleEvent account state (EvMessage v) w).1.2 =
  match purple_find_buddy host account sender with
  | None =>
    [purple_buddy_new account sender display;
     purple_blist_add_buddy account sender]
  | Some buddy =>
    if named then [purple_blist_alias_buddy buddy display] else []
  end
  ++ [serv_got_im (purple_account_get_connection host account) sender
        (CString (classify (Message v))) (Timestamp (Info v))].
Proof.
  intros Hme Hgr Ht sender push named display. cbn. unfold handleMessage.
  case_decide; [done|]. unfold to_purple. cbn. rewrite Hme, Hgr. cbn.
  rewrite app_nil_r. unfold display, named, push, sender.
  by destruct (CString (PushName (Info v))).
Qed.

(** X22.  A group message with text from someone else reaches libpurple
    as one serv_got_chat_in in the conversation of the chat, under the
    push name or, when that is empty, the sender address; addresses,
    text and push name are the C strings, read as far as their first NUL
    byte.  When libpurple has no conversation for the chat, the chat is
    joined first under the hash of its address, stored in an int and so
    negative from 2^31 on, and the message is lost without a trace when
    that join hands back no conversation. *)
Theorem group_message_delivery host account state (v : EventsMessage) w :
  IsFromMe (Info v) = false →
  IsGroup (Info v) = true →
  classify (Message v) ≠ EmptyString →
  let gc := purple_account_get_connection host account in
  let chat := CString (JID_String (Chat (Info v))) in
  let push := CString (PushName (Info v)) in
  let display :=
    if bool_decide (push ≠ EmptyString) then push
    else CString (JID_String (Sender (Info v))) in
  let chat_in conv :=
    serv_got_chat_in gc (purple_conv_chat_get_id host conv) display
      (CString (classify (Message v))) (Timestamp (Info v)) in
  let chat_id := int_of_guint (g_str_hash host chat) in
  (- 2 ^ 31 ≤ chat_id < 2 ^ 31)
  ∧ to_purple host (handleEvent account state (EvMessage v) w).1.2 =
    match purple_find_conversation_with_account host chat account with
    | Some conv => [chat_in conv]
    | None =>
      serv_got_joined_chat gc chat_id chat ::
      match joined_chat host gc chat_id chat with
      | Some conv => [chat_in conv]
      | None => []
      end
    end.
Proof.
  intros Hme Hgr Ht gc chat push display chat_in chat_id. split.
  { unfold chat_id, int_of_guint.
    pose proof (Z.mod_pos_bound (g_str_hash host chat) (2 ^ 32)) as Hb.
    case_decide; lia. }
  cbn. unfold handleMessage.
  case_decide; [done|]. unfold to_purple. cbn. rewrite Hme, Hgr. cbn.
  rewrite app_nil_r. unfold chat_in, display, push, chat_id, chat, gc.
  by destruct (CString (PushName (Info v))).
Qed.

(** X23.  A presence event shows the contact online when the event does
    not say unavailable and offline when it does; a chat presence event
    shows the sender typing when its state is composing and stops the
    typing display otherwise.  The address crosses to the C side as a C
    string.  Neither needs the account to have a connection. *)
Theorem presence_and_typing_shown host account state from unavailable sender
    st w :
  to_purple host
    (handleEvent account state (EvPresence from unavailable) w).1.2
  = [purple_prpl_got_user_status account (CString (JID_String from))
       (if unavailable then "offline" else "online")]
  ∧ to_purple host
      (handleEvent account state (EvChatPresence sender st) w).1.2
    = [match st with
       | ChatPresenceComposing =>
         serv_got_typing (purple_account_get_connection host account)
           (CString (JID_String sender)) 0 PURPLE_TYPING
       | ChatPresencePaused =>
         serv_got_typing_stopped (purple_account_get_connection host account)
           (CString (JID_String sender))
       end].
Proof. split; [by destruct unavailable|by destruct st]. Qed.

(** X24.  For an account without connection the status of the session
    does not reach libpurple: connected, disconnected and logged-out
    events, every pairing item and every error the commands report are
    dropped by the C side. *)
Theorem no_connection_no_status host account state reason item msg w :
  purple_account_get_connection host account = None →
  to_purple host (handleEvent account state EvConnected w).1.2 = []
  ∧ to_purple host (handleEvent account state EvDisconnected w).1.2 = []
  ∧ to_purple host (handleEvent account state (EvLoggedOut reason) w).1.2 = []
  ∧ to_purple host (forwarded account item) = []
  ∧ to_purple host (reportError account msg w).1.2 = [].
Proof.
  intros Hgc. unfold to_purple, forwarded, qr_consumer_body. run_monad. cbn.
  unfold Plugin.bridge_connected, Plugin.bridge_disconnected,
    Plugin.bridge_error.
  rewrite Hgc. repeat split.
  repeat case_decide; cbn;
    unfold Plugin.bridge_show_qr_code, Plugin.bridge_connected,
      Plugin.bridge_error; by rewrite ?Hgc.
Qed.

End PluginProperties.

(** * The further properties on the example engine and host *)

Section DemoFacts2.
#[local] Existing Instance demo_engine.

Lemma login_other_accounts_witness :
  2%N ≠ 1%N
  ∧ accounts (gowhatsapp_go_login env_pair_ok 1 demo_phone demo_logged_in).2
      !! 2%N
    = accounts demo_logged_in !! 2%N.
Proof.
  assert (2%N ≠ 1%N) as Hne by discriminate.
  split; [exact Hne|].
  exact (login_other_accounts env_pair_ok 1 demo_phone demo_logged_in 2 Hne).
Defined.

Lemma login_setup_failure_witness :
  accounts initial !! 1%N = None
  ∧ gowhatsapp_go_login env_db_fails 1 demo_phone initial
    = (-1, [mu_Lock;
            os_MkdirAll "/home/u/.purple/whatsmeow" 448;
            sqlstore_New "sqlite3"
              "file:/home/u/.purple/whatsmeow/6512345678.db?_foreign_keys=on";
            bridge_error 1 "DB error: unable to open database file";
            mu_Unlock], initial).
Proof.
  assert (accounts initial !! 1%N = None) as Hst by reflexivity.
  split; [exact Hst|].
  exact (login_setup_failure env_db_fails 1 demo_phone initial Hst).
Defined.


Lemma siblings_release_lock_witness :
  registry_ok demo_logged_in
  ∧ under_lock false (gowhatsapp_go_logout 1 demo_logged_in).1.2 = []
  ∧ under_lock false
      (gowhatsapp_go_send_message None 1 "6598765432@s.whatsapp.net" "hi"
         demo_logged_in).1.2 = []
  ∧ under_lock false
      (gowhatsapp_go_send_typing 1 "6598765432@s.whatsapp.net" 1
         demo_logged_in).1.2 = []
  ∧ under_lock false
      (gowhatsapp_go_mark_read 1 "6598765432@s.whatsapp.net" "3EB0A1"
         "6598765432@s.whatsapp.net" demo_logged_in).1.2 = [].
Proof.
  split; [exact demo_logged_in_ok|].
  exact (siblings_release_lock None 1 "6598765432@s.whatsapp.net" "hi" 1
           "3EB0A1" "6598765432@s.whatsapp.net" demo_logged_in
           demo_logged_in_ok).
Defined.

Lemma extract_phone_username_witness :
  strchr "6512345678" "@"%char = None
  ∧ extract_phone "6512345678@s.whatsapp.net" = "6512345678".
Proof.
  assert (strchr "6512345678" "@"%char = None) as Hp by reflexivity.
  split; [exact Hp|].
  exact (extract_phone_username "6512345678" "s.whatsapp.net" Hp).
Defined.

Lemma wm_send_im_result_witness :
  registry_ok demo_logged_in
  ∧ (let account := purple_connection_get_account demo_host 10%N in
     let '(ret, out, purple, w') :=
       wm_send_im demo_host None 10%N "6598765432@s.whatsapp.net" "hi"
         demo_logged_in in
     w' = demo_logged_in
     ∧ (ret = 1 ∨ ret = -1)
     ∧ (ret = 1 ↔
        is_Some (accounts demo_logged_in !! account)
        ∧ (ParseJID "6598765432@s.whatsapp.net").2 = None
        ∧ @None string = None)
     ∧ (ret = 1 →
        purple = []
        ∧ ∃ cl, out = [mu_Lock; mu_Unlock;
                       SendMessage cl (ParseJID "6598765432@s.whatsapp.net").1
                         (purple_markup_strip_html demo_host "hi")])).
Proof.
  split; [exact demo_logged_in_ok|].
  exact (wm_send_im_result demo_host None 10%N "6598765432@s.whatsapp.net"
           "hi" demo_logged_in demo_logged_in_ok).
Defined.

Lemma wm_chat_send_result_witness :
  registry_ok demo_logged_in
  ∧ (let account := purple_connection_get_account demo_host 10%N in
     let '(ret, out, purple, w') :=
       wm_chat_send demo_host None 10%N 78 "hi" demo_logged_in in
     w' = demo_logged_in
     ∧ (ret = 1 ∨ ret = -1)
     ∧ match purple_find_chat demo_host 10%N 78 with
       | None => ret = -1 ∧ out = [] ∧ purple = []
       | Some conv =>
         let chat_jid := purple_conversation_get_name demo_host conv in
         (ret = 1 ↔
          is_Some (accounts demo_logged_in !! account)
          ∧ (ParseJID chat_jid).2 = None ∧ @None string = None)
         ∧ (ret = 1 →
            ∃ cl, out = [mu_Lock; mu_Unlock;
                         SendMessage cl (ParseJID chat_jid).1
                           (purple_markup_strip_html demo_host "hi")])
       end).
Proof.
  split; [exact demo_logged_in_ok|].
  exact (wm_chat_send_result demo_host None 10%N 78 "hi" demo_logged_in
           demo_logged_in_ok).
Defined.

Lemma wm_send_typing_state_witness :
  registry_ok demo_logged_in
  ∧ accounts demo_logged_in !! purple_connection_get_account demo_host 10%N
    = Some (new_state 1%N {| ID := Some demo_self |} initial)
  ∧ (ParseJID "6598765432@s.whatsapp.net").2 = None
  ∧ (wm_send_typing demo_host 10%N "6598765432@s.whatsapp.net" PURPLE_TYPED
       demo_logged_in).1.1.1 = 0
  ∧ ∃ cl p,
      client (new_state 1%N {| ID := Some demo_self |} initial) = Some cl
      ∧ (wm_send_typing demo_host 10%N "6598765432@s.whatsapp.net"
           PURPLE_TYPED demo_logged_in).1.1.2
        = [mu_Lock; mu_Unlock;
           SendChatPresence cl (ParseJID "6598765432@s.whatsapp.net").1 p
             ChatPresenceMediaText]
      ∧ (p = ChatPresenceComposing ↔ PURPLE_TYPED = PURPLE_TYPING).
Proof.
  assert ((ParseJID "6598765432@s.whatsapp.net").2 = None) as Hp
    by reflexivity.
  split; [exact demo_logged_in_ok|].
  split; [exact demo_logged_in_record|].
  split; [exact Hp|].
  pose proof (wm_send_typing_state demo_host 10%N "6598765432@s.whatsapp.net"
                PURPLE_TYPED demo_logged_in) as Hthm.
  cbv zeta in Hthm.
  destruct (wm_send_typing demo_host 10%N "6598765432@s.whatsapp.net"
              PURPLE_TYPED demo_logged_in) as [[[ret out] purple] w'].
  destruct Hthm as (Hret & _ & _ & _ & Hsent).
  split; [exact Hret|].
  exact (Hsent demo_logged_in_ok _ demo_logged_in_record Hp).
Defined.

Lemma own_message_not_shown_witness :
  IsFromMe (Info demo_own) = true
  ∧ classify (Message demo_own) ≠ EmptyString
  ∧ to_purple demo_host
      (handleEvent 1 (new_state 1%N {| ID := None |} initial)
         (EvMessage demo_own) initial).1.2 = []
  ∧ (handleEvent 1 (new_state 1%N {| ID := None |} initial)
       (EvMessage demo_own) initial).1.2
    = [bridge_receive_message 1 "6512345678@s.whatsapp.net"
         "6598765432@s.whatsapp.net" "hello" "3EB0A2" "Me" 1700000001 1 0].
Proof.
  assert (classify (Message demo_own) ≠ EmptyString) as Ht
    by (vm_compute; discriminate).
  destruct (own_message_not_shown demo_host 1
              (new_state 1%N {| ID := None |} initial) demo_own initial
              eq_refl) as (Hnone & Hout & _).
  split; [reflexivity|]. split; [exact Ht|]. split; [exact Hnone|].
  exact (Hout Ht).
Defined.

Lemma direct_message_delivery_witness :
  IsFromMe (Info demo_nul) = false
  ∧ IsGroup (Info demo_nul) = false
  ∧ classify (Message demo_nul) ≠ EmptyString
  ∧ to_purple demo_host
      (handleEvent 1 (new_state 1%N {| ID := None |} initial)
         (EvMessage demo_nul) initial).1.2
    = [purple_buddy_new 1 "6598765432@s.whatsapp.net"
         "6598765432@s.whatsapp.net";
       purple_blist_add_buddy 1 "6598765432@s.whatsapp.net";
       serv_got_im (Some 10%N) "6598765432@s.whatsapp.net" "hi" 1700000003].
Proof.
  assert (classify (Message demo_nul) ≠ EmptyString) as Ht
    by (vm_compute; discriminate).
  split; [reflexivity|]. split; [reflexivity|]. split; [exact Ht|].
  exact (direct_message_delivery demo_host 1
           (new_state 1%N {| ID := None |} initial) demo_nul initial
           eq_refl eq_refl Ht).
Defined.

Lemma group_message_delivery_witness :
  IsFromMe (Info demo_group) = false
  ∧ IsGroup (Info demo_group) = true
  ∧ classify (Message demo_group) ≠ EmptyString
  ∧ (- 2 ^ 31 ≤ -1920623627 < 2 ^ 31)
  ∧ to_purple demo_host
      (handleEvent 1 (new_state 1%N {| ID := None |} initial)
         (EvMessage demo_group) initial).1.2
    = [serv_got_joined_chat (Some 10%N) (-1920623627) "12036304@g.us";
       serv_got_chat_in (Some 10%N) 77 "6598765432@s.whatsapp.net" "hello"
         1700000002].
Proof.
  assert (classify (Message demo_group) ≠ EmptyString) as Ht
    by (vm_compute; discriminate).
  split; [reflexivity|]. split; [reflexivity|]. split; [exact Ht|].
  exact (group_message_delivery demo_host 1
           (new_state 1%N {| ID := None |} initial) demo_group initial
           eq_refl eq_refl Ht).
Defined.

Lemma no_connection_no_status_witness :
  purple_account_get_connection demo_host 2%N = None
  ∧ to_purple demo_host
      (handleEvent 2 (new_state 1%N {| ID := None |} initial) EvConnected
         initial).1.2 = []
  ∧ to_purple demo_host
      (handleEvent 2 (new_state 1%N {| ID := None |} initial) EvDisconnected
         initial).1.2 = []
  ∧ to_purple demo_host
      (handleEvent 2 (new_state 1%N {| ID := None |} initial)
         (EvLoggedOut "401") initial).1.2 = []
  ∧ to_purple demo_host (forwarded 2 demo_code) = []
  ∧ to_purple demo_host (reportError 2 "Send failed: timeout" initial).1.2
    = [].
Proof.
  assert (purple_account_get_connection demo_host 2%N = None) as Hgc
    by reflexivity.
  split; [exact Hgc|].
  exact (no_connection_no_status demo_host 2
           (new_state 1%N {| ID := None |} initial) "401" demo_code
           "Send failed: timeout" initial Hgc).
Defined.

End DemoFacts2.
